(** * camdkit data model: a shallow embedding of [camdkit/model.py]

    The development follows the Python source class by class.  Python
    values are dynamically typed, so every value lives in one inductive
    universe [pyobj]; exceptions are explicit results; the class-level
    descriptor table [Clip._params] and the per-instance slot table
    [_values] are threaded as explicit state. *)

From Stdlib Require Import ZArith PrimFloat FloatOps SpecFloat Ascii.
From stdpp Require Import gmap strings list sorting.

Set Warnings "-register-all".
Open Scope string_scope.
Open Scope Z_scope.

(** ** Exceptions and results *)

Inductive exn : Set :=
| TypeError | ValueError | KeyError | IndexError | AttributeError | OverflowError.

Inductive res (A : Type) : Type :=
| Ok (a : A)
| Raise (e : exn).
Arguments Ok {A} a.
Arguments Raise {A} e.

(** Sequencing: the first exception raised propagates.  With these
    instances [x ← m; k] is stdpp's notation for [mbind]. *)
#[export] Instance res_ret : MRet res := fun A a => Ok a.
#[export] Instance res_bind : MBind res := fun A B k m =>
  match m with
  | Ok a => k a
  | Raise e => Raise e
  end.

(** ** Enumerations of [camdkit.framework] *)

(** Modelled from the spec: the enumeration type [SynchronizationSourceEnum]
    of [camdkit.framework], which is not part of the sources at hand.  The
    spec fixes that it is a closed enumeration whose members are written on
    the wire as strings and names the member "ptp"; the other members are
    the remaining synchronization sources of the payload. *)
Inductive SynchronizationSourceEnum : Set := GENLOCK | VIDEO_IN | PTP | NTP.

Definition sync_source_value (e : SynchronizationSourceEnum) : string :=
  match e with
  | GENLOCK => "genlock"
  | VIDEO_IN => "videoIn"
  | PTP => "ptp"
  | NTP => "ntp"
  end.

(** The members of [TimecodeFormat] are those listed by
    [TimingTimecode.make_json_schema]: "24", "24D", "25", "30", "30D". *)
Inductive TimecodeFormat : Set := TC_24 | TC_24D | TC_25 | TC_30 | TC_30D.

Definition timecode_format_value (e : TimecodeFormat) : string :=
  match e with
  | TC_24 => "24"
  | TC_24D => "24D"
  | TC_25 => "25"
  | TC_30 => "30"
  | TC_30D => "30D"
  end.

(** Modelled from the spec: [TimecodeFormat.to_int], the "frame-count-for-format"
    of the spec's timecode rule; [camdkit.framework] is not part of the sources
    at hand.  Drop-frame and non-drop formats of one rate count the same
    number of frames. *)
Definition TimecodeFormat_to_int (e : TimecodeFormat) : Z :=
  match e with
  | TC_24 | TC_24D => 24
  | TC_25 => 25
  | TC_30 | TC_30D => 30
  end.

(** ** The universe of Python values

    The dataclasses of [camdkit.framework] that the modelled descriptors
    handle are constructors with one argument per attribute; Python checks
    no attribute type, so each attribute is again a [pyobj].  The attribute
    names are those that [model.py] reads, in the order in which its schema
    fragments list them.  JSON documents
    are the values built from [VDict], [VList], [VStr], the numbers,
    [VBool] and [VNone]. *)

Inductive pyobj : Type :=
| VNone
| VBool (b : bool)
| VInt (z : Z)
| VFloat (f : float)
| VStr (s : string)
| VTuple (l : list pyobj)
| VList (l : list pyobj)
| VDict (d : list (string * pyobj))
| VSyncSource (e : SynchronizationSourceEnum)
| VTimecodeFormat (e : TimecodeFormat)
| Synchronization
    (frequency locked source ptp_master ptp_offset ptp_domain offsets enabled : pyobj)
| SynchronizationOffsets (translation rotation encoders : pyobj)
| Encoders (focus iris zoom : pyobj)
| Timecode (hours minutes seconds frames format : pyobj).

(** ** Built-ins *)

(** [x != None] and [x is not None]; no value of the universe other than
    [None] compares equal to [None]. *)
Definition is_None (v : pyobj) : bool :=
  match v with VNone => true | _ => false end.

Definition isinstance_float (v : pyobj) : bool :=
  match v with VFloat _ => true | _ => false end.

Definition isinstance_bool (v : pyobj) : bool :=
  match v with VBool _ => true | _ => false end.

(** [bool] is a subclass of [int], and both are registered as
    [numbers.Integral]. *)
Definition isinstance_int (v : pyobj) : bool :=
  match v with VInt _ | VBool _ => true | _ => false end.

Definition isinstance_str (v : pyobj) : bool :=
  match v with VStr _ => true | _ => false end.


(** [numbers.Real]: [float], [int] and [bool]. *)
Definition isinstance_Real (v : pyobj) : bool :=
  match v with VFloat _ | VInt _ | VBool _ => true | _ => false end.

(** The integer an [int] or [bool] stands for in arithmetic. *)
Definition int_of (v : pyobj) : option Z :=
  match v with
  | VInt z => Some z
  | VBool b => Some (if b then 1 else 0)
  | _ => None
  end.

(** Dictionaries keep insertion order; keys are unique. *)
Fixpoint dict_get (k : string) (d : list (string * pyobj)) : option pyobj :=
  match d with
  | [] => None
  | (k', v) :: d' => if String.eqb k k' then Some v else dict_get k d'
  end.

Fixpoint dict_set (k : string) (v : pyobj) (d : list (string * pyobj))
  : list (string * pyobj) :=
  match d with
  | [] => [(k, v)]
  | (k', v') :: d' =>
      if String.eqb k k' then (k, v) :: d' else (k', v') :: dict_set k v d'
  end.

(** [d[k]] on a JSON value. *)
Definition subscript (v : pyobj) (k : string) : res pyobj :=
  match v with
  | VDict d => match dict_get k d with Some x => Ok x | None => Raise KeyError end
  | _ => Raise TypeError
  end.

(** [t[i]] on a tuple, with Python's negative indices. *)
Definition tuple_item (l : list pyobj) (i : Z) : res pyobj :=
  let n := Z.of_nat (length l) in
  let j := if i <? 0 then i + n else i in
  if (0 <=? j) && (j <? n)
  then match l !! Z.to_nat j with Some x => Ok x | None => Raise IndexError end
  else Raise IndexError.

(** [int(x)] on a float: truncation towards zero; infinities raise
    [OverflowError] and NaN raises [ValueError]. *)
Definition int_of_float (f : float) : res Z :=
  match Prim2SF f with
  | S754_zero _ => Ok 0
  | S754_infinity _ => Raise OverflowError
  | S754_nan => Raise ValueError
  | S754_finite s m e =>
      let a := match e with
               | Z0 => Zpos m
               | Zpos p => Zpos m * 2 ^ Zpos p
               | Zneg p => Zpos m / 2 ^ Zpos p
               end in
      Ok (if s then - a else a)
  end.

(** *** Strings *)

Definition code (c : ascii) : N := N_of_ascii c.

Definition in_range (lo hi c : ascii) : bool :=
  ((code lo <=? code c) && (code c <=? code hi))%N.

Definition is_digit (c : ascii) : bool := in_range "0" "9" c.

(** The ASCII white space that [str.strip] and [int] skip. *)
Definition is_space (c : ascii) : bool :=
  ((9 <=? code c) && (code c <=? 13) || (28 <=? code c) && (code c <=? 32))%N.

Definition lower_char (c : ascii) : ascii :=
  if in_range "A" "Z" c then ascii_of_N (code c + 32) else c.

(** [s.lower()]; strings are byte strings here, and no character outside
    ASCII lowers to a hexadecimal digit. *)
Definition lower (s : list ascii) : list ascii := map lower_char s.

(** The digits of a decimal literal, where single underscores may
    separate digits. *)
Fixpoint parse_digits (s : list ascii) (acc : Z) (after_digit : bool) : option Z :=
  match s with
  | [] => if after_digit then Some acc else None
  | c :: s' =>
      if is_digit c then parse_digits s' (10 * acc + Z.of_N (code c - 48)) true
      else if Ascii.eqb c "_" && after_digit then
             match s' with
             | d :: _ => if is_digit d then parse_digits s' acc false else None
             | [] => None
             end
           else None
  end.

Fixpoint lstrip (s : list ascii) : list ascii :=
  match s with
  | c :: s' => if is_space c then lstrip s' else s
  | [] => []
  end.

Definition strip (s : list ascii) : list ascii := rev (lstrip (rev (lstrip s))).

(** [int(s)] on a string, base ten. *)
Definition int_of_string (s : string) : res Z :=
  let digits (neg : bool) (t : list ascii) :=
    match parse_digits t 0 false with
    | Some z => Ok (if neg then - z else z)
    | None => Raise ValueError
    end in
  match strip (String.list_ascii_of_string s) with
  | c :: t =>
      if Ascii.eqb c "-" then digits true t
      else if Ascii.eqb c "+" then digits false t
      else digits false (c :: t)
  | [] => Raise ValueError
  end.

(** [int(x)]. *)
Definition int_ (v : pyobj) : res pyobj :=
  match v with
  | VInt z => Ok (VInt z)
  | VBool b => Ok (VInt (if b then 1 else 0))
  | VFloat f => z ← int_of_float f; Ok (VInt z)
  | VStr s => z ← int_of_string s; Ok (VInt z)
  | _ => Raise TypeError
  end.

(** *** Exact comparison of numbers

    Python and JSON Schema compare an integer with a float by value. *)

Definition sf_compare_Z (z : Z) (x : spec_float) : option comparison :=
  match x with
  | S754_nan => None
  | S754_zero _ => Some (z ?= 0)
  | S754_infinity s => Some (if s then Gt else Lt)
  | S754_finite s m e =>
      let q := if s then Zneg m else Zpos m in
      match e with
      | Z0 => Some (z ?= q)
      | Zpos p => Some (z ?= q * 2 ^ Zpos p)
      | Zneg p => Some (z * 2 ^ Zpos p ?= q)
      end
  end.

Inductive num : Set := NInt (z : Z) | NFloat (f : float).

(** [a <= b] *)
Definition num_le (a b : num) : bool :=
  match a, b with
  | NInt x, NInt y => x <=? y
  | NFloat x, NFloat y => (x <=? y)%float
  | NInt x, NFloat y =>
      match sf_compare_Z x (Prim2SF y) with
      | Some Lt | Some Eq => true
      | _ => false
      end
  | NFloat x, NInt y =>
      match sf_compare_Z y (Prim2SF x) with
      | Some Gt | Some Eq => true
      | _ => false
      end
  end.

(** A float without fractional part. *)
Definition float_is_integer (f : float) : bool :=
  match Prim2SF f with
  | S754_zero _ => true
  | S754_finite _ m (Zneg p) => (Zpos m mod 2 ^ Zpos p =? 0)
  | S754_finite _ _ _ => true
  | _ => false
  end.

(** *** Regular expressions

    The fragment of Python's [re] that the module's two patterns use:
    character classes, optional and counted repetition, one capturing group
    with its back-reference, and the anchors.  The matcher backtracks like
    [re] does; [k] is the continuation for the rest of the pattern. *)

Inductive regex : Type :=
| RClass (ranges : list (ascii * ascii))
| RSeq (r1 r2 : regex)
| ROpt (r : regex)
| RRep (n : nat) (r : regex)
| RGroup (r : regex)
| RBackref
| RBegin
| REnd.

Fixpoint strip_prefix (p s : list ascii) : option (list ascii) :=
  match p, s with
  | [], _ => Some s
  | a :: p', b :: s' => if Ascii.eqb a b then strip_prefix p' s' else None
  | _ :: _, [] => None
  end.

Fixpoint rmatch (r : regex) (pos : nat) (s : list ascii) (cap : option (list ascii))
    (k : nat → list ascii → option (list ascii) → bool) {struct r} : bool :=
  match r with
  | RClass ranges =>
      match s with
      | c :: s' =>
          existsb (λ lh, in_range lh.1 lh.2 c) ranges && k (S pos) s' cap
      | [] => false
      end
  | RSeq r1 r2 => rmatch r1 pos s cap (λ pos' s' cap', rmatch r2 pos' s' cap' k)
  | ROpt r1 => rmatch r1 pos s cap k || k pos s cap
  | RRep n r1 =>
      (fix rep (n : nat) pos s cap {struct n} : bool :=
         match n with
         | O => k pos s cap
         | S n' => rmatch r1 pos s cap (λ pos' s' cap', rep n' pos' s' cap')
         end) n pos s cap
  | RGroup r1 =>
      rmatch r1 pos s cap
        (λ pos' s' _, k pos' s' (Some (take (pos' - pos)%nat s)))
  | RBackref =>
      match cap with
      | Some t =>
          match strip_prefix t s with
          | Some s' => k (pos + length t)%nat s' cap
          | None => false
          end
      | None => false
      end
  | RBegin => Nat.eqb pos 0 && k pos s cap
  | REnd =>
      match s with
      | [] => k pos s cap
      | [c] => Ascii.eqb c "010" && k pos s cap
      | _ => false
      end
  end.

(** [re.match(r, s)]: a match that starts at the first character. *)
Definition re_match (r : regex) (s : list ascii) : bool :=
  rmatch r 0 s None (λ _ _ _, true).

(** [re.search(r, s)]: a match that starts anywhere; JSON Schema's
    [pattern] is not anchored unless the pattern says so. *)
Fixpoint re_search_from (r : regex) (pos : nat) (s : list ascii) : bool :=
  rmatch r pos s None (λ _ _ _, true) ||
  match s with
  | [] => false
  | _ :: s' => re_search_from r (S pos) s'
  end.

Definition re_search (r : regex) (s : list ascii) : bool := re_search_from r 0 s.

Definition hex_lower : regex := RClass [("0", "9"); ("a", "f")]%char.
Definition hex_upper : regex := RClass [("A", "F"); ("0", "9")]%char.

(** ["[0-9a-f]{2}([-:]?)[0-9a-f]{2}(\\1[0-9a-f]{2}){4}$"], the pattern of
    [TimingSynchronization.validate]. *)
Definition mac_validate_re : regex :=
  RSeq (RRep 2 hex_lower)
    (RSeq (RGroup (ROpt (RClass [("-", "-"); (":", ":")]%char)))
       (RSeq (RRep 2 hex_lower)
          (RSeq (RRep 4 (RSeq RBackref (RRep 2 hex_lower))) REnd))).

(** ["^([A-F0-9]{2}:){5}[A-F0-9]{2}$"], the pattern of
    [TimingSynchronization.make_json_schema]. *)
Definition mac_schema_re : regex :=
  RSeq RBegin
    (RSeq (RRep 5 (RSeq (RRep 2 hex_upper) (RClass [(":", ":")]%char)))
       (RSeq (RRep 2 hex_upper) REnd)).

(** ** Dataclasses *)

(** [dataclasses.asdict]'s recursion: a dataclass instance becomes a dict of
    its converted fields, containers are rebuilt, and any other value is
    copied. *)
Fixpoint asdict_inner (v : pyobj) : pyobj :=
  match v with
  | Synchronization frequency locked source ptp_master ptp_offset ptp_domain
      offsets enabled =>
      VDict [("frequency", asdict_inner frequency); ("locked", asdict_inner locked);
             ("source", asdict_inner source); ("ptp_master", asdict_inner ptp_master);
             ("ptp_offset", asdict_inner ptp_offset);
             ("ptp_domain", asdict_inner ptp_domain);
             ("offsets", asdict_inner offsets); ("enabled", asdict_inner enabled)]
  | SynchronizationOffsets translation rotation encoders =>
      VDict [("translation", asdict_inner translation);
             ("rotation", asdict_inner rotation);
             ("encoders", asdict_inner encoders)]
  | Encoders focus iris zoom =>
      VDict [("focus", asdict_inner focus); ("iris", asdict_inner iris);
             ("zoom", asdict_inner zoom)]
  | Timecode hours minutes seconds frames format =>
      VDict [("hours", asdict_inner hours); ("minutes", asdict_inner minutes);
             ("seconds", asdict_inner seconds); ("frames", asdict_inner frames);
             ("format", asdict_inner format)]
  | VTuple l => VTuple (map asdict_inner l)
  | VList l => VList (map asdict_inner l)
  | VDict d => VDict (map (λ kv, (kv.1, asdict_inner kv.2)) d)
  | _ => v
  end.

Definition is_dataclass_instance (v : pyobj) : bool :=
  match v with
  | Synchronization _ _ _ _ _ _ _ _ | SynchronizationOffsets _ _ _
  | Encoders _ _ _ | Timecode _ _ _ _ _ => true
  | _ => false
  end.

(** [dataclasses.asdict(v)] *)
Definition asdict (v : pyobj) : res (list (string * pyobj)) :=
  if is_dataclass_instance v
  then match asdict_inner v with VDict d => Ok d | _ => Raise TypeError end
  else Raise TypeError.

(** [{k: v for k, v in d.items() if v is not None}] *)
Definition drop_None (d : list (string * pyobj)) : list (string * pyobj) :=
  List.filter (λ kv, negb (is_None kv.2)) d.

Definition keyword (k : string) (kw : list (string * pyobj)) : pyobj :=
  default VNone (dict_get k kw).

Definition known_keywords (names : list string) (kw : list (string * pyobj)) : bool :=
  forallb (λ kv, existsb (String.eqb kv.1) names) kw.

(** Modelled from the spec: the dataclass [Synchronization] of
    [camdkit.framework], which is not part of the sources at hand.
    [frequency], [locked] and [source] are required, the PTP fields,
    [offsets] and [enabled] are optional and absent ([None]) by default.
    [Synchronization( **kw )] raises [TypeError] on an unknown keyword and on
    a missing required one. *)
Definition Synchronization_init (kw : pyobj) : res pyobj :=
  match kw with
  | VDict kw =>
      if known_keywords ["frequency"; "locked"; "source"; "ptp_master"; "ptp_offset";
                         "ptp_domain"; "offsets"; "enabled"] kw
      then
        match dict_get "frequency" kw, dict_get "locked" kw, dict_get "source" kw with
        | Some frequency, Some locked, Some source =>
            Ok (Synchronization frequency locked source (keyword "ptp_master" kw)
                  (keyword "ptp_offset" kw) (keyword "ptp_domain" kw)
                  (keyword "offsets" kw) (keyword "enabled" kw))
        | _, _, _ => Raise TypeError
        end
      else Raise TypeError
  | _ => Raise TypeError
  end.

(** Modelled from the spec: the dataclass [Encoders] ("FIZ encoder triple"),
    every field optional and absent by default. *)
Definition Encoders_init (kw : pyobj) : res pyobj :=
  match kw with
  | VDict kw =>
      if known_keywords ["focus"; "iris"; "zoom"] kw
      then Ok (Encoders (keyword "focus" kw) (keyword "iris" kw) (keyword "zoom" kw))
      else Raise TypeError
  | _ => Raise TypeError
  end.

(** Modelled from the spec: [TimecodeFormat.from_string], the inverse of the
    enumeration's string form; a string outside the enumeration is a
    decoding fault. *)
Definition TimecodeFormat_from_string (v : pyobj) : res pyobj :=
  match v with
  | VStr s =>
      if String.eqb s "24" then Ok (VTimecodeFormat TC_24)
      else if String.eqb s "24D" then Ok (VTimecodeFormat TC_24D)
      else if String.eqb s "25" then Ok (VTimecodeFormat TC_25)
      else if String.eqb s "30" then Ok (VTimecodeFormat TC_30)
      else if String.eqb s "30D" then Ok (VTimecodeFormat TC_30D)
      else Raise ValueError
  | _ => Raise ValueError
  end.

(** ** JSON Schema

    The keywords that the schema fragments of the module use.  [anyOf] lists
    the [required] sets of its alternatives; an empty list stands for a
    fragment without [anyOf]. *)

Inductive schema : Type :=
| SInteger (minimum maximum : option Z)
| SNumber (minimum maximum : option float)
| SBoolean
| SString (pattern : option regex) (enum : option (list string))
| SObject (additionalProperties : bool) (properties : list (string * schema))
    (required : list string) (anyOf : list (list string)).

(** A JSON number; [true] and [false] are not numbers. *)
Definition as_num (v : pyobj) : option num :=
  match v with
  | VInt z => Some (NInt z)
  | VFloat f => Some (NFloat f)
  | _ => None
  end.

Definition bounded (lo hi : option num) (n : num) : bool :=
  match lo with Some l => num_le l n | None => true end &&
  match hi with Some h => num_le n h | None => true end.

Definition has_key (d : list (string * pyobj)) (k : string) : bool :=
  match dict_get k d with Some _ => true | None => false end.

Fixpoint schema_valid (sch : schema) (v : pyobj) {struct sch} : bool :=
  match sch with
  | SInteger lo hi =>
      match v with
      | VInt z => bounded (NInt <$> lo) (NInt <$> hi) (NInt z)
      | VFloat f => float_is_integer f && bounded (NInt <$> lo) (NInt <$> hi) (NFloat f)
      | _ => false
      end
  | SNumber lo hi =>
      match as_num v with
      | Some n => bounded (NFloat <$> lo) (NFloat <$> hi) n
      | None => false
      end
  | SBoolean => isinstance_bool v
  | SString pattern enum =>
      match v with
      | VStr s =>
          match pattern with
          | Some r => re_search r (String.list_ascii_of_string s)
          | None => true
          end &&
          match enum with
          | Some members => existsb (String.eqb s) members
          | None => true
          end
      | _ => false
      end
  | SObject additional properties required anyOf =>
      match v with
      | VDict d =>
          forallb (has_key d) required &&
          (additional ||
           forallb (λ kv, existsb (λ ps, String.eqb kv.1 ps.1) properties) d) &&
          (fix each (ps : list (string * schema)) : bool :=
             match ps with
             | [] => true
             | (k, s) :: ps' =>
                 match dict_get k d with
                 | Some x => schema_valid s x
                 | None => true
                 end && each ps'
             end) properties &&
          match anyOf with
          | [] => true
          | _ => existsb (forallb (has_key d)) anyOf
          end
      | _ => false
      end
  end.

(** ** Parameter descriptors of [model.py] *)

(** *** [ShutterAngle] *)

(** [isinstance(value, numbers.Integral) and 0 < value <= 360000] *)
Definition ShutterAngle_validate (value : pyobj) : bool :=
  match int_of value with
  | Some z => (0 <? z) && (z <=? 360000)
  | None => false
  end.

Definition ShutterAngle_to_json (value : pyobj) : pyobj := value.

Definition ShutterAngle_from_json (value : pyobj) : res pyobj := int_ value.

Definition ShutterAngle_make_json_schema : schema :=
  SInteger (Some 1) (Some 360000).

(** *** [LensEncoders] *)

(** [isinstance(test, float) and test >= 0.0 and test <= 1.0] *)
Definition normalised (test : pyobj) : bool :=
  match test with
  | VFloat f => ((0 <=? f) && (f <=? 1))%float
  | _ => false
  end.

Definition LensEncoders_validate (value : pyobj) : bool :=
  match value with
  | Encoders focus iris zoom =>
      if is_None focus && is_None iris && is_None zoom then false
      else forallb (λ test, negb (negb (is_None test) && negb (normalised test)))
             [focus; iris; zoom]
  | _ => false
  end.

Definition LensEncoders_to_json (value : pyobj) : res pyobj :=
  d ← asdict value; Ok (VDict (drop_None d)).

Definition LensEncoders_from_json (value : pyobj) : res pyobj := Encoders_init value.

Definition LensEncoders_make_json_schema : schema :=
  SObject false
    [("focus", SNumber (Some 0%float) (Some 1%float));
     ("iris", SNumber (Some 0%float) (Some 1%float));
     ("zoom", SNumber (Some 0%float) (Some 1%float))]
    []
    [["focus"]; ["iris"]; ["zoom"]].

(** *** [TimingTimecode] and [TimingSynchronization]

    Two pieces of Python are left open: the built-in [str] on values other
    than strings and the two enumerations, and the method
    [SynchronizationOffsets.validate] of [camdkit.framework] that
    [TimingSynchronization.validate] calls on a present [offsets]. *)

Section Timing.

Variable builtin_str : pyobj → string.
Variable offsets_validate : pyobj → res bool.

(** [str(x)].  Modelled from the spec: the enumerations of
    [camdkit.framework] print as their wire strings. *)
Definition str (v : pyobj) : string :=
  match v with
  | VStr s => s
  | VSyncSource e => sync_source_value e
  | VTimecodeFormat e => timecode_format_value e
  | _ => builtin_str v
  end.

(** [isinstance(x, int) and lo <= x and x < hi] *)
Definition int_in (lo hi : Z) (x : pyobj) : bool :=
  match int_of x with
  | Some z => (lo <=? z) && (z <? hi)
  | None => false
  end.

Definition TimingTimecode_validate (value : pyobj) : bool :=
  match value with
  | Timecode hours minutes seconds frames format =>
      match format with
      | VTimecodeFormat fmt =>
          if negb (int_in 0 24 hours) then false
          else if negb (int_in 0 60 minutes) then false
          else if negb (int_in 0 60 seconds) then false
          else if negb (int_in 0 (TimecodeFormat_to_int fmt) frames) then false
          else true
      | _ => false
      end
  | _ => false
  end.

Definition TimingTimecode_to_json (value : pyobj) : res pyobj :=
  d ← asdict value;
  format ← subscript (VDict d) "format";
  Ok (VDict (dict_set "format" (VStr (str format)) d)).

Definition TimingTimecode_from_json (value : pyobj) : res pyobj :=
  hours ← subscript value "hours";
  minutes ← subscript value "minutes";
  seconds ← subscript value "seconds";
  frames ← subscript value "frames";
  format ← subscript value "format";
  format ← TimecodeFormat_from_string format;
  Ok (Timecode hours minutes seconds frames format).

Definition TimingTimecode_make_json_schema : schema :=
  SObject false
    [("hours", SInteger (Some 0) (Some 23));
     ("minutes", SInteger (Some 0) (Some 59));
     ("seconds", SInteger (Some 0) (Some 59));
     ("frames", SInteger (Some 0) (Some 29));
     ("format", SString None (Some ["24"; "24D"; "25"; "30"; "30D"]))]
    [] [].

(** The MAC address test of [validate]. *)
Definition is_mac (v : pyobj) : bool :=
  match v with
  | VStr s => re_match mac_validate_re (lower (String.list_ascii_of_string s))
  | _ => false
  end.

Definition TimingSynchronization_validate (value : pyobj) : res bool :=
  match value with
  | Synchronization frequency locked source ptp_master ptp_offset ptp_domain
      offsets enabled =>
      if negb match frequency with VFloat f => (0 <? f)%float | _ => false end
      then Ok false
      else if negb (isinstance_bool locked) then Ok false
      else if negb match source with VSyncSource _ => true | _ => false end
      then Ok false
      else if negb (is_None ptp_master) && negb (is_mac ptp_master) then Ok false
      else if negb (is_None ptp_offset) && negb (isinstance_float ptp_offset)
      then Ok false
      else if negb (is_None ptp_domain) &&
              negb match int_of ptp_domain with Some z => 0 <=? z | None => false end
      then Ok false
      else
        offsets_ok ← (if is_None offsets then Ok true else offsets_validate offsets);
        if negb offsets_ok then Ok false
        else if negb (is_None enabled) && negb (isinstance_bool enabled) then Ok false
        else Ok true
  | _ => Ok false
  end.

Definition TimingSynchronization_to_json (value : pyobj) : res pyobj :=
  d ← asdict value;
  let d := drop_None d in
  source ← subscript (VDict d) "source";
  Ok (VDict (dict_set "source" (VStr (str source)) d)).

Definition TimingSynchronization_from_json (value : pyobj) : res pyobj :=
  Synchronization_init value.

Definition TimingSynchronization_make_json_schema : schema :=
  SObject false
    [("frequency", SNumber (Some 0%float) None);
     ("locked", SBoolean);
     ("source", SString None (Some (map sync_source_value [GENLOCK; VIDEO_IN; PTP; NTP])));
     ("ptp_master", SString (Some mac_schema_re) None);
     ("ptp_offset", SNumber None None);
     ("ptp_domain", SInteger (Some 0) None);
     ("offsets",
      SObject false
        [("translation", SNumber None None);
         ("rotation", SNumber None None);
         ("encoders", SNumber None None)] [] []);
     ("enabled", SBoolean)]
    ["frequency"; "locked"; "source"]
    [].

End Timing.

(** ** The record container [Clip] *)

Inductive Sampling : Set := STATIC | REGULAR.

#[export] Instance Sampling_eq_dec : EqDecision Sampling.
Proof. solve_decision. Defined.

(** The descriptor classes that [Clip] instantiates. *)
Inductive parameter : Set :=
| ActiveSensorPhysicalDimensions | Duration | CaptureFPS | ISO
| LensSerialNumber | LensMake | LensModel | LensFirmware
| CameraSerialNumber | CameraMake | CameraModel | CameraFirmware
| TStop | FStop | FocalLength | FocusPosition | EntrancePupilPosition
| AnamorphicSqueeze | FDLLink | ShutterAngle
| MetadataStatus | MetadataRecording | MetadataSlate | MetadataNotes
| MetadataRelatedPackets | PacketId | Protocol | Transforms | TimingMode
| TimingSynchronization | LensEncoders | TimingTimestamp
| TimingSequenceNumber | TimingFrameRate | TimingTimecode
| LensFoVScale | LensExposureFalloff.

#[export] Instance parameter_eq_dec : EqDecision parameter.
Proof. solve_decision. Defined.

(** The class attribute [sampling]. *)
Definition class_sampling (c : parameter) : Sampling :=
  match c with
  | ActiveSensorPhysicalDimensions | Duration | CaptureFPS | ISO
  | LensSerialNumber | LensMake | LensModel | LensFirmware
  | CameraSerialNumber | CameraMake | CameraModel | CameraFirmware
  | AnamorphicSqueeze | FDLLink | ShutterAngle => STATIC
  | TStop | FStop | FocalLength | FocusPosition | EntrancePupilPosition
  | MetadataStatus | MetadataRecording | MetadataSlate | MetadataNotes
  | MetadataRelatedPackets | PacketId | Protocol | Transforms | TimingMode
  | TimingSynchronization | LensEncoders | TimingTimestamp
  | TimingSequenceNumber | TimingFrameRate | TimingTimecode
  | LensFoVScale | LensExposureFalloff => REGULAR
  end.

(** The class attribute [canonical_name]. *)
Definition canonical_name (c : parameter) : string :=
  match c with
  | ActiveSensorPhysicalDimensions => "activeSensorPhysicalDimensions"
  | Duration => "duration"
  | CaptureFPS => "captureRate"
  | ISO => "isoSpeed"
  | LensSerialNumber => "lensSerialNumber"
  | LensMake => "lensMake"
  | LensModel => "lensModel"
  | LensFirmware => "lensFirmwareVersion"
  | CameraSerialNumber => "cameraSerialNumber"
  | CameraMake => "cameraMake"
  | CameraModel => "cameraModel"
  | CameraFirmware => "cameraFirmwareVersion"
  | TStop => "tStop"
  | FStop => "fStop"
  | FocalLength => "focalLength"
  | FocusPosition => "focusPosition"
  | EntrancePupilPosition => "entrancePupilPosition"
  | AnamorphicSqueeze => "anamorphicSqueeze"
  | FDLLink => "fdlLink"
  | ShutterAngle => "shutterAngle"
  | MetadataStatus => "status"
  | MetadataRecording => "recording"
  | MetadataSlate => "slate"
  | MetadataNotes => "notes"
  | MetadataRelatedPackets => "relatedPackets"
  | PacketId => "packetId"
  | Protocol => "protocol"
  | Transforms => "transforms"
  | TimingMode => "mode"
  | TimingSynchronization => "synchronization"
  | LensEncoders => "encoders"
  | TimingTimestamp => "timestamp"
  | TimingSequenceNumber => "sequence_number"
  | TimingFrameRate => "frameRate"
  | TimingTimecode => "timecode"
  | LensFoVScale => "fovScale"
  | LensExposureFalloff => "exposureFalloff"
  end.

(** A descriptor object: an instance of its class.  Reading
    [desc.sampling] finds an attribute set on the instance before the
    class attribute. *)
Record descriptor : Set := Descriptor {
  desc_class : parameter;
  own_sampling : option Sampling
}.

#[export] Instance descriptor_eq_dec : EqDecision descriptor.
Proof. solve_decision. Defined.

Definition sampling (desc : descriptor) : Sampling :=
  default (class_sampling (desc_class desc)) (own_sampling desc).

(** [desc.sampling = s] *)
Definition set_sampling (s : Sampling) (desc : descriptor) : descriptor :=
  {| desc_class := desc_class desc; own_sampling := Some s |}.

(** The body of [class Clip], in the order of its declarations. *)
Definition Clip_fields : list (string * parameter) :=
  [("duration", Duration);
   ("capture_fps", CaptureFPS);
   ("active_sensor_physical_dimensions", ActiveSensorPhysicalDimensions);
   ("lens_make", LensMake);
   ("lens_model", LensModel);
   ("lens_serial_number", LensSerialNumber);
   ("lens_firmware", LensFirmware);
   ("camera_make", CameraMake);
   ("camera_model", CameraModel);
   ("camera_firmware", CameraFirmware);
   ("camera_serial_number", CameraSerialNumber);
   ("iso", ISO);
   ("t_number", TStop);
   ("f_number", FStop);
   ("focal_length", FocalLength);
   ("focus_position", FocusPosition);
   ("entrance_pupil_position", EntrancePupilPosition);
   ("anamorphic_squeeze", AnamorphicSqueeze);
   ("fdl_link", FDLLink);
   ("shutter_angle", ShutterAngle);
   ("packet_id", PacketId);
   ("protocol", Protocol);
   ("metadata_status", MetadataStatus);
   ("metadata_recording", MetadataRecording);
   ("metadata_slate", MetadataSlate);
   ("metadata_notes", MetadataNotes);
   ("metadata_related_packets", MetadataRelatedPackets);
   ("timing_mode", TimingMode);
   ("timing_timestamp", TimingTimestamp);
   ("timing_sequence_number", TimingSequenceNumber);
   ("timing_frame_rate", TimingFrameRate);
   ("timing_timecode", TimingTimecode);
   ("timing_synchronization", TimingSynchronization);
   ("transforms", Transforms);
   ("lens_encoders", LensEncoders);
   ("lens_fov_scale", LensFoVScale);
   ("lens_exposure_falloff", LensExposureFalloff)].

(** Modelled from the spec: the descriptor mapping [Clip._params] that
    [ParameterContainer] of [camdkit.framework] (not part of the sources at
    hand) builds at type-definition time: one entry per declared field
    identifier, bound to that field's descriptor instance. *)
Definition Clip_params_init : list (string * descriptor) :=
  map (λ fc, (fc.1, Descriptor fc.2 None)) Clip_fields.

#[export] Instance string_le_dec (a b : string) : Decision (String.leb a b = true).
Proof. solve_decision. Defined.

(** [dir(self)], restricted to the field identifiers; [dir] lists
    attribute names in alphabetical order.  The other attributes of a
    [Clip] (methods, [_params], [_values]) are no tuples, and
    [__getitem__] skips them. *)
Definition Clip_dir : list string :=
  merge_sort (λ a b, String.leb a b = true) (map fst Clip_fields).
#[global] Arguments Clip_dir : simpl never.

(** The program state: the class attribute [Clip._params], shared by all
    instances, and the [_values] dictionary of each [Clip] instance; an
    instance is named by its position in [instances]. *)
Record world : Type := World {
  Clip_params : list (string * descriptor);
  instances : list (gmap string pyobj)
}.

(** Modelled from the spec: [Clip()] of [ParameterContainer]; every slot of
    a new record is absent, that is [None]. *)
Definition Clip_new (w : world) : world * nat :=
  (World (Clip_params w)
     (instances w ++ [list_to_map (map (λ kd, (kd.1, VNone)) (Clip_params w))]),
   length (instances w)).

(** [self._values[f]] *)
Definition slot (w : world) (self : nat) (f : string) : res pyobj :=
  match instances w !! self with
  | Some values =>
      match values !! f with
      | Some v => Ok v
      | None => Raise KeyError
      end
  | None => Raise AttributeError
  end.

(** [self._values[f] = v] *)
Definition set_slot (w : world) (self : nat) (f : string) (v : pyobj) : world :=
  World (Clip_params w) (alter (insert f v) self (instances w)).

(** Modelled from the spec: the accessors of [ParameterContainer],
    "direct slot access; no validation on set". *)
Definition getattr (w : world) (self : nat) (f : string) : res pyobj := slot w self f.
Definition setattr (w : world) (self : nat) (f : string) (v : pyobj) : world :=
  set_slot w self f v.

(** *** [+=] *)

(** [float(z)]: the nearest double, or [OverflowError]. *)
Definition float_of_Z (z : Z) : res float :=
  match binary_normalize prec emax z 0 false with
  | S754_infinity _ => Raise OverflowError
  | x => Ok (SF2Prim x)
  end.

(** The items that iterating over [v] yields, for the iterables of the
    universe. *)
Definition iterate (v : pyobj) : res (list pyobj) :=
  match v with
  | VTuple l | VList l => Ok l
  | VStr s => Ok (map (λ c, VStr (String c EmptyString)) (String.list_ascii_of_string s))
  | VDict d => Ok (map (λ kv, VStr kv.1) d)
  | _ => Raise TypeError
  end.

(** [a += b], as a value: tuples, strings and numbers build a new object,
    a list is extended by any iterable. *)
Definition iadd (a b : pyobj) : res pyobj :=
  match a, b with
  | VTuple x, VTuple y => Ok (VTuple (x ++ y))
  | VStr x, VStr y => Ok (VStr (x +:+ y))
  | VList x, _ => y ← iterate b; Ok (VList (x ++ y))
  | VFloat x, VFloat y => Ok (VFloat (x + y)%float)
  | VFloat x, _ =>
      match int_of b with
      | Some z => y ← float_of_Z z; Ok (VFloat (x + y)%float)
      | None => Raise TypeError
      end
  | _, VFloat y =>
      match int_of a with
      | Some z => x ← float_of_Z z; Ok (VFloat (x + y)%float)
      | None => Raise TypeError
      end
  | _, _ =>
      match int_of a, int_of b with
      | Some x, Some y => Ok (VInt (x + y))
      | _, _ => Raise TypeError
      end
  end.

(** *** [Clip.append] *)

(** What a caller may pass as [clip]: a [Clip] instance, or anything else. *)
Inductive argument : Type :=
| AClip (ref : nat)
| AOther (v : pyobj).

(** The loop of [append] over [self._params.items()].  An exception leaves
    the slots as the iterations before it made them. *)
Fixpoint append_loop (self clip : nat) (items : list (string * descriptor))
    (w : world) : world * res unit :=
  match items with
  | [] => (w, Ok ())
  | (prop, desc) :: items' =>
      match slot w clip prop with
      | Raise e => (w, Raise e)
      | Ok theirs =>
          if negb (is_None theirs) && bool_decide (sampling desc = REGULAR)
          then
            match slot w self prop with
            | Raise e => (w, Raise e)
            | Ok ours =>
                match slot w clip prop with
                | Raise e => (w, Raise e)
                | Ok theirs =>
                    match iadd ours theirs with
                    | Raise e => (w, Raise e)
                    | Ok sum => append_loop self clip items' (set_slot w self prop sum)
                    end
                end
            end
          else append_loop self clip items' w
      end
  end.

Definition Clip_append (self : nat) (clip : argument) (w : world) : world * res unit :=
  match clip with
  | AOther _ => (w, Raise ValueError)
  | AClip clip => append_loop self clip (Clip_params w) w
  end.

(** *** [Clip.__getitem__] *)

Fixpoint getitem_loop (self clip : nat) (i : Z) (names : list string)
    (w : world) : world * res unit :=
  match names with
  | [] => (w, Ok ())
  | f :: names' =>
      match getattr w self f with
      | Raise e => (w, Raise e)
      | Ok (VTuple desc) =>
          match tuple_item desc i with
          | Raise e => (w, Raise e)
          | Ok item => getitem_loop self clip i names' (setattr w clip f item)
          end
      | Ok _ => getitem_loop self clip i names' w
      end
  end.

Definition Clip_getitem (self : nat) (i : Z) (w : world) : world * res nat :=
  let (w, clip) := Clip_new w in
  let (w, r) := getitem_loop self clip i Clip_dir w in
  (w, _ ← r; Ok clip).

(** *** [Clip.make_static_json_schema] *)

(** [del d[k]] *)
Definition dict_del {A} (k : string) (d : list (string * A)) : list (string * A) :=
  List.filter (λ kv, negb (String.eqb k kv.1)) d.

(** The loop over [cls._params.copy().items()].  The copy is shallow: it
    holds the descriptor objects of [cls._params] themselves, so
    [desc.sampling = Sampling.STATIC] shows in [cls._params]. *)
Fixpoint static_loop (copy params : list (string * descriptor))
  : list (string * descriptor) :=
  match copy with
  | [] => params
  | (prop, desc) :: copy' =>
      if bool_decide (sampling desc = STATIC)
      then static_loop copy' (dict_del prop params)
      else static_loop copy'
             (map (λ kd, if String.eqb prop kd.1 then (kd.1, set_sampling STATIC kd.2)
                         else kd) params)
  end.

Section Schema.

(** [ParameterContainer.make_json_schema] of [camdkit.framework], which is
    not part of the sources at hand: the schema document it assembles from
    the descriptor mapping it finds. *)
Variable make_json_schema : list (string * descriptor) → pyobj.

Definition Clip_make_static_json_schema (w : world) : world * pyobj :=
  let params := static_loop (Clip_params w) (Clip_params w) in
  (World params (instances w), make_json_schema params).

End Schema.

(** ** States used in the examples *)

(** The state after the module is loaded: no record yet. *)
Definition world0 : world := World Clip_params_init [].

(** Two new records, [Clip()] twice; they are records 0 and 1. *)
Definition two_records : world := (Clip_new (Clip_new world0).1).1.

(** Record 0 is empty, record 1 holds [t_number = (3,)]. *)
Definition world_append_absent : world :=
  setattr two_records 1 "t_number" (VTuple [VInt 3]).

(** Record 0 holds the REGULAR field [timing_sequence_number = (1, 2)] and
    the STATIC field [iso = 100]; record 1 holds
    [timing_sequence_number = (3,)]. *)
Definition world_append_example : world :=
  setattr
    (setattr
       (setattr two_records 0 "timing_sequence_number" (VTuple [VInt 1; VInt 2]))
       0 "iso" (VInt 100))
    1 "timing_sequence_number" (VTuple [VInt 3]).

(** One record with [timing_sequence_number = (10, 11, 12)] and
    [iso = 100]. *)
Definition world_extract_example : world :=
  setattr
    (setattr (Clip_new world0).1 0 "timing_sequence_number"
       (VTuple [VInt 10; VInt 11; VInt 12]))
    0 "iso" (VInt 100).

(** The same record, with [t_number = (1,)] besides: a sequence that has
    no element at position 1. *)
Definition world_extract_short : world :=
  setattr world_extract_example 0 "t_number" (VTuple [VInt 1]).

(** Synchronization values: the one of the specification's example, and
    two with a [ptp_master] that is not in upper case with colons. *)
Definition sync_ptp : pyobj :=
  Synchronization (VFloat 24) (VBool true) (VSyncSource PTP)
    VNone VNone VNone VNone VNone.

Definition sync_ptp_lower_mac : pyobj :=
  Synchronization (VFloat 24) (VBool true) (VSyncSource PTP)
    (VStr "aa:bb:cc:dd:ee:ff") VNone VNone VNone VNone.

Definition sync_ptp_dash_mac : pyobj :=
  Synchronization (VFloat 24) (VBool true) (VSyncSource PTP)
    (VStr "00-11-22-33-44-55") VNone VNone VNone VNone.

(** The slot table of that record. *)
Definition extract_example_values : gmap string pyobj :=
  default ∅ (instances world_extract_example !! 0%nat).

(** ** Predicates on records *)

(** Every field identifier has a slot in [values]. *)
Definition has_slots (values : gmap string pyobj) (names : list string) : bool :=
  forallb (λ f, match values !! f with Some _ => true | None => false end) names.

(** Every slot that holds a tuple has an element at position [i]. *)
Definition indexable (i : Z) (values : gmap string pyobj) (names : list string) : bool :=
  forallb
    (λ f, match values !! f with
          | Some (VTuple l) =>
              match tuple_item l i with Ok _ => true | Raise _ => false end
          | _ => true
          end) names.

(** What [make_static_json_schema] leaves of a descriptor mapping: the
    entries whose sampling was REGULAR, each with its sampling set to
    STATIC. *)
Definition staticised (params : list (string * descriptor))
  : list (string * descriptor) :=
  map (λ kd, (kd.1, set_sampling STATIC kd.2))
    (List.filter (λ kd, bool_decide (sampling kd.2 = REGULAR)) params).

(** [append] can merge [theirs] into [ours]: the other record has every
    slot, and where it holds a populated REGULAR field both records hold a
    tuple. *)
Definition appendable (params : list (string * descriptor))
    (ours theirs : gmap string pyobj) : bool :=
  forallb
    (λ kd : string * descriptor,
       match theirs !! kd.1 with
       | None => false
       | Some tv =>
           if negb (is_None tv) && bool_decide (sampling kd.2 = REGULAR)
           then match ours !! kd.1, tv with
                | Some (VTuple _), VTuple _ => true
                | _, _ => false
                end
           else true
       end) params.

(** Slot tables written out, and states made of them: a record as
    [Clip()] makes it, one with [t_number = (3,)], one with
    [timing_sequence_number = (1, 2)] and [iso = 100], and one with
    [timing_sequence_number = (3,)]. *)
Definition slots_empty : gmap string pyobj :=
  list_to_map (map (λ kd, (kd.1, VNone)) Clip_params_init).
Definition slots_t_number : gmap string pyobj :=
  <["t_number" := VTuple [VInt 3]]> slots_empty.
Definition slots_sequence_12 : gmap string pyobj :=
  <["iso" := VInt 100]>
    (<["timing_sequence_number" := VTuple [VInt 1; VInt 2]]> slots_empty).
Definition slots_sequence_3 : gmap string pyobj :=
  <["timing_sequence_number" := VTuple [VInt 3]]> slots_empty.

Definition pair_empty : world := World Clip_params_init [slots_empty; slots_empty].
Definition pair_absent : world := World Clip_params_init [slots_empty; slots_t_number].
Definition pair_sequences : world :=
  World Clip_params_init [slots_sequence_12; slots_sequence_3].

(** ** Predicates of the specification *)

(** The rule as the specification words it, with "real number" read as
    Python's [numbers.Real]: an [int] or a [float]. *)
Definition real_in_unit_interval (x : pyobj) : Prop :=
  match x with
  | VFloat f => (0 <=? f)%float = true ∧ (f <=? 1)%float = true
  | _ => ∃ z, int_of x = Some z ∧ 0 ≤ z ≤ 1
  end.

Definition claimed_LensEncoders_valid (v : pyobj) : Prop :=
  ∃ focus iris zoom,
    v = Encoders focus iris zoom ∧
    (focus ≠ VNone ∨ iris ≠ VNone ∨ zoom ≠ VNone) ∧
    ∀ x, x ∈ [focus; iris; zoom] → x = VNone ∨ real_in_unit_interval x.

(** A JSON number that is a real number: an integer, or a float other than
    the infinities and NaN. *)
Definition finite (f : float) : bool :=
  match Prim2SF f with
  | S754_zero _ | S754_finite _ _ _ => true
  | _ => false
  end.

Definition json_real_number (x : pyobj) : Prop :=
  match x with
  | VInt _ => True
  | VFloat f => finite f = true
  | _ => False
  end.

(** * Properties *)

(** ** Auxiliary facts about the built-ins *)

(** A decidable closed proposition, settled by evaluating its decision. *)
Ltac by_evaluation := apply (bool_decide_unpack _); vm_compute; exact I.

Example mac_validate_colon :
  re_match mac_validate_re (lower (String.list_ascii_of_string "00:1A:2b:3c:4D:5e")) = true.
Proof. reflexivity. Qed.

Example mac_validate_dash :
  re_match mac_validate_re (lower (String.list_ascii_of_string "00-1a-2b-3c-4d-5e")) = true.
Proof. reflexivity. Qed.

Example mac_validate_plain :
  re_match mac_validate_re (lower (String.list_ascii_of_string "001a2b3c4d5e")) = true.
Proof. reflexivity. Qed.

Example mac_validate_mixed :
  re_match mac_validate_re (lower (String.list_ascii_of_string "00-1a:2b-3c:4d-5e")) = false.
Proof. reflexivity. Qed.

Example mac_validate_not_a_mac :
  re_match mac_validate_re (lower (String.list_ascii_of_string "not-a-mac")) = false.
Proof. reflexivity. Qed.

Example mac_schema_upper :
  re_search mac_schema_re (String.list_ascii_of_string "00:1A:2B:3C:4D:5E") = true.
Proof. reflexivity. Qed.

Example int_of_string_ex :
  int_of_string " -1_000 " = Ok (-1000) ∧ int_of_string "12.5" = Raise ValueError.
Proof. split; reflexivity. Qed.

Lemma is_None_true (v : pyobj) : is_None v = true ↔ v = VNone.
Proof. destruct v; simpl; split; congruence. Qed.

Lemma is_None_false (v : pyobj) : is_None v = false ↔ v ≠ VNone.
Proof. destruct v; simpl; split; congruence. Qed.

Lemma is_None_asdict_inner (v : pyobj) : is_None (asdict_inner v) = is_None v.
Proof. destruct v; reflexivity. Qed.

Lemma int_of_asdict_inner (v : pyobj) (z : Z) :
  int_of v = Some z → asdict_inner v = v.
Proof. destruct v; simpl; congruence. Qed.

Lemma int_in_spec (lo hi : Z) (x : pyobj) :
  int_in lo hi x = true ↔ ∃ z, int_of x = Some z ∧ lo ≤ z < hi.
Proof.
  unfold int_in. destruct (int_of x) as [z|].
  - rewrite andb_true_iff, Z.leb_le, Z.ltb_lt. split.
    + intros H. exists z. split; [reflexivity | lia].
    + intros (z' & Hz & H). injection Hz as ->. lia.
  - split; [discriminate | intros (z & Hz & _); discriminate].
Qed.

Lemma normalised_spec (x : pyobj) :
  normalised x = true ↔
  ∃ f, x = VFloat f ∧ (0 <=? f)%float = true ∧ (f <=? 1)%float = true.
Proof.
  destruct x; simpl; try (split; [discriminate | intros (f0 & H & _); discriminate]).
  rewrite andb_true_iff. split.
  - intros [H0 H1]. eauto.
  - intros (f0 & H & H0 & H1). injection H as ->. auto.
Qed.

Lemma timecode_format_roundtrip (e : TimecodeFormat) :
  TimecodeFormat_from_string (VStr (timecode_format_value e)) = Ok (VTimecodeFormat e).
Proof. destruct e; reflexivity. Qed.

(** ** [TimingTimecode] *)

Lemma TimingTimecode_validate_spec (v : pyobj) :
  TimingTimecode_validate v = true ↔
  ∃ hours minutes seconds frames fmt h m s f,
    v = Timecode hours minutes seconds frames (VTimecodeFormat fmt) ∧
    int_of hours = Some h ∧ 0 ≤ h < 24 ∧
    int_of minutes = Some m ∧ 0 ≤ m < 60 ∧
    int_of seconds = Some s ∧ 0 ≤ s < 60 ∧
    int_of frames = Some f ∧ 0 ≤ f < TimecodeFormat_to_int fmt.
Proof.
  split.
  - destruct v as [| | | | | | | | | | | | |hours minutes seconds frames format];
      simpl; try discriminate.
    destruct format as [| | | | | | | | |fmt| | | |]; try discriminate.
    destruct (int_in 0 24 hours) eqn:Hh; simpl; [| discriminate].
    destruct (int_in 0 60 minutes) eqn:Hm; simpl; [| discriminate].
    destruct (int_in 0 60 seconds) eqn:Hs; simpl; [| discriminate].
    destruct (int_in 0 (TimecodeFormat_to_int fmt) frames) eqn:Hf; simpl;
      [| discriminate].
    intros _.
    apply int_in_spec in Hh as (h & Hh & ?), Hm as (m & Hm & ?),
        Hs as (s & Hs & ?), Hf as (f & Hf & ?).
    exists hours, minutes, seconds, frames, fmt, h, m, s, f. tauto.
  - intros (hours & minutes & seconds & frames & fmt & h & m & s & f & -> &
            Hh & ? & Hm & ? & Hs & ? & Hf & ?).
    simpl.
    assert (int_in 0 24 hours = true) as -> by (apply int_in_spec; eauto).
    assert (int_in 0 60 minutes = true) as -> by (apply int_in_spec; eauto).
    assert (int_in 0 60 seconds = true) as -> by (apply int_in_spec; eauto).
    assert (int_in 0 (TimecodeFormat_to_int fmt) frames = true) as ->
        by (apply int_in_spec; eauto).
    reflexivity.
Qed.

(** C7.  [TimingTimecode.validate] accepts exactly the [Timecode] values
    whose [format] is a member of [TimecodeFormat], whose [hours] is an
    integer in [0,24), whose [minutes] and [seconds] are integers in [0,60)
    and whose [frames] is an integer in [0, frame count of the format).
    So 23:59:59:29 in format 30D validates, and the same with 24 hours
    does not. *)
Theorem TimingTimecode_validate_iff :
  (∀ v : pyobj,
      TimingTimecode_validate v = true ↔
      ∃ hours minutes seconds frames fmt h m s f,
        v = Timecode hours minutes seconds frames (VTimecodeFormat fmt) ∧
        int_of hours = Some h ∧ 0 ≤ h < 24 ∧
        int_of minutes = Some m ∧ 0 ≤ m < 60 ∧
        int_of seconds = Some s ∧ 0 ≤ s < 60 ∧
        int_of frames = Some f ∧ 0 ≤ f < TimecodeFormat_to_int fmt) ∧
  TimingTimecode_validate
    (Timecode (VInt 23) (VInt 59) (VInt 59) (VInt 29) (VTimecodeFormat TC_30D)) = true ∧
  TimingTimecode_validate
    (Timecode (VInt 24) (VInt 59) (VInt 59) (VInt 29) (VTimecodeFormat TC_30D)) = false.
Proof.
  split; [exact TimingTimecode_validate_spec | split; reflexivity].
Qed.

(** The timecode codec does convert the enumeration back: it is the
    inverse of [to_json] on every value that [validate] accepts. *)
Lemma TimingTimecode_roundtrip (builtin_str : pyobj → string) (v : pyobj) :
  TimingTimecode_validate v = true →
  (TimingTimecode_to_json builtin_str v ≫= TimingTimecode_from_json) = Ok v.
Proof.
  intros H. apply TimingTimecode_validate_spec in H
    as (hours & minutes & seconds & frames & fmt & h & m & s & f & -> &
        Hh & _ & Hm & _ & Hs & _ & Hf & _).
  unfold TimingTimecode_to_json, asdict. simpl.
  rewrite (int_of_asdict_inner _ _ Hh), (int_of_asdict_inner _ _ Hm),
    (int_of_asdict_inner _ _ Hs), (int_of_asdict_inner _ _ Hf).
  unfold TimingTimecode_from_json. simpl.
  destruct fmt; reflexivity.
Qed.

(** ** [LensEncoders] *)

(** C8, as stated, fails: the integer 1 is a real number of [0.0, 1.0],
    and [validate] rejects an encoder value that holds it. *)
Lemma LensEncoders_validate_rejects_int :
  ¬ (LensEncoders_validate (Encoders (VInt 1) VNone VNone) = true ↔
     claimed_LensEncoders_valid (Encoders (VInt 1) VNone VNone)).
Proof.
  intros [_ H]. enough (false = true) by discriminate. apply H.
  exists (VInt 1), VNone, VNone. split; [reflexivity |]. split.
  - left. discriminate.
  - intros x Hx. apply elem_of_cons in Hx as [-> | Hx].
    + right. exists 1. simpl. split; [reflexivity | lia].
    + left. apply elem_of_cons in Hx as [-> | Hx]; [reflexivity |].
      apply elem_of_cons in Hx as [-> | Hx]; [reflexivity |].
      apply elem_of_nil in Hx as [].
Qed.

(** C8, amended.  [LensEncoders.validate] accepts exactly the [Encoders]
    values in which at least one of focus, iris and zoom is present and
    every present one is a [float] between 0.0 and 1.0 inclusive. *)
Theorem LensEncoders_validate_iff_float (v : pyobj) :
  LensEncoders_validate v = true ↔
  ∃ focus iris zoom,
    v = Encoders focus iris zoom ∧
    (focus ≠ VNone ∨ iris ≠ VNone ∨ zoom ≠ VNone) ∧
    ∀ x, x ∈ [focus; iris; zoom] →
         x = VNone ∨ ∃ f, x = VFloat f ∧ (0 <=? f)%float = true ∧ (f <=? 1)%float = true.
Proof.
  assert (Hone : ∀ x, negb (negb (is_None x) && negb (normalised x)) = true ↔
                      x = VNone ∨ ∃ f, x = VFloat f ∧ (0 <=? f)%float = true
                                        ∧ (f <=? 1)%float = true).
  { intros x. rewrite <- normalised_spec, <- is_None_true.
    destruct (is_None x), (normalised x); simpl; intuition congruence. }
  split.
  - destruct v as [| | | | | | | | | | | |focus iris zoom|]; simpl; try discriminate.
    destruct (is_None focus && is_None iris && is_None zoom) eqn:Hall;
      [discriminate |].
    rewrite !andb_true_iff. intros (Hf & Hi & Hz & _).
    exists focus, iris, zoom. split; [reflexivity |]. split.
    + rewrite <- !is_None_false.
      destruct (is_None focus), (is_None iris), (is_None zoom);
        simpl in Hall; auto; discriminate.
    + intros x Hx. apply Hone.
      repeat (apply elem_of_cons in Hx as [-> | Hx]; [assumption |]).
      apply elem_of_nil in Hx as [].
  - intros (focus & iris & zoom & -> & Hsome & Hall). simpl.
    rewrite <- !is_None_false in Hsome.
    assert (is_None focus && is_None iris && is_None zoom = false) as ->.
    { destruct Hsome as [-> | [-> | ->]];
        [reflexivity | apply andb_false_iff; left; apply andb_false_r
         | apply andb_false_r]. }
    rewrite !andb_true_iff. repeat split; apply Hone, Hall; rewrite !elem_of_cons; auto.
Qed.

(** ** [ShutterAngle] *)

Lemma int_of_float_finite (f : float) :
  finite f = true → ∃ z, int_of_float f = Ok z.
Proof.
  unfold finite, int_of_float.
  destruct (Prim2SF f) as [s|s| |s m e]; try discriminate; intros _; eauto.
Qed.

(** Out of the real numbers the conversion does fault. *)
Lemma ShutterAngle_from_json_not_finite :
  ShutterAngle_from_json (VFloat infinity) = Raise OverflowError ∧
  ShutterAngle_from_json (VFloat nan) = Raise ValueError.
Proof. split; reflexivity. Qed.

(** The schema fragment and [validate] agree on the integers. *)
Lemma ShutterAngle_schema_agrees (z : Z) :
  schema_valid ShutterAngle_make_json_schema (ShutterAngle_to_json (VInt z)) =
  ShutterAngle_validate (VInt z).
Proof.
  unfold ShutterAngle_validate, ShutterAngle_to_json. simpl. unfold bounded. simpl.
  destruct (0 <? z) eqn:H0, (1 <=? z) eqn:H1; simpl; try reflexivity; lia.
Qed.

(** C10.  On every JSON number that is a real number [ShutterAngle.from_json]
    returns an integer, [int(x)], and raises nothing; 12.5, which
    [validate] rejects, is decoded to 12. *)
Theorem ShutterAngle_from_json_total :
  (∀ x : pyobj, json_real_number x →
     ShutterAngle_from_json x = int_ x ∧
     ∃ z, ShutterAngle_from_json x = Ok (VInt z) ∧ ∀ n, x = VInt n → z = n) ∧
  ShutterAngle_from_json (VFloat 12.5) = Ok (VInt 12) ∧
  ShutterAngle_validate (VFloat 12.5) = false.
Proof.
  split; [| split; reflexivity].
  intros x Hx. split; [reflexivity |].
  destruct x; simpl in Hx; try contradiction.
  - exists z. split; [reflexivity | congruence].
  - destruct (int_of_float_finite f Hx) as [z Hz]. exists z.
    unfold ShutterAngle_from_json. simpl. rewrite Hz. split; [reflexivity | discriminate].
Qed.

Lemma ShutterAngle_from_json_total_witness :
  json_real_number (VFloat 12.5) ∧
  ∃ z, ShutterAngle_from_json (VFloat 12.5) = Ok (VInt z) ∧
       ∀ n, VFloat 12.5 = VInt n → z = n.
Proof.
  split; [reflexivity |].
  apply (proj1 ShutterAngle_from_json_total (VFloat 12.5)). reflexivity.
Defined.

(** ** [TimingSynchronization] *)

(** C1.  The round trip fails on [TimingSynchronization]: for every value
    that [validate] accepts, [to_json] succeeds and [from_json] decodes its
    result, but to a value that differs from the original (its [source] is
    the string, not the enumeration member) and that [validate] rejects. *)
Theorem TimingSynchronization_roundtrip_fails
    (builtin_str : pyobj → string) (offsets_validate : pyobj → res bool) (v : pyobj) :
  TimingSynchronization_validate offsets_validate v = Ok true →
  ∃ j r,
    TimingSynchronization_to_json builtin_str v = Ok j ∧
    TimingSynchronization_from_json j = Ok r ∧
    r ≠ v ∧
    TimingSynchronization_validate offsets_validate r = Ok false.
Proof.
  destruct v as [| | | | | | | | | |frequency locked source ptp_master ptp_offset
                   ptp_domain offsets enabled| | |]; simpl; try discriminate.
  destruct frequency as [| | |f| | | | | | | | | |]; simpl; try discriminate.
  destruct (0 <? f)%float eqn:Hf; simpl; [| discriminate].
  destruct locked as [|b| | | | | | | | | | | |]; simpl; try discriminate.
  destruct source as [| | | | | | | |e| | | | |]; simpl; try discriminate.
  intros _.
  unfold TimingSynchronization_to_json, TimingSynchronization_from_json, asdict,
    drop_None.
  simpl. rewrite !is_None_asdict_inner.
  destruct (is_None ptp_master), (is_None ptp_offset), (is_None ptp_domain),
    (is_None offsets), (is_None enabled); simpl;
    (eexists; eexists; split; [reflexivity |]; split; [reflexivity |];
     split; [discriminate | simpl; rewrite Hf; reflexivity]).
Qed.

Lemma TimingSynchronization_roundtrip_fails_witness :
  ∃ j r,
    TimingSynchronization_to_json (λ _, "") sync_ptp = Ok j ∧
    TimingSynchronization_from_json j = Ok r ∧
    r ≠ sync_ptp ∧
    TimingSynchronization_validate (λ _, Ok true) r = Ok false.
Proof.
  apply (TimingSynchronization_roundtrip_fails (λ _, "") (λ _, Ok true) sync_ptp).
  reflexivity.
Defined.

(** C6.  Schema conformance fails on [TimingSynchronization]: [validate]
    accepts a [ptp_master] written in lower case, or with dashes, and
    [to_json] of such a value does not validate against the fragment of
    [make_json_schema], whose pattern wants upper case and colons.  The
    shutter angles 0 and 360001 are rejected by the [ShutterAngle]
    fragment. *)
Theorem TimingSynchronization_schema_mismatch
    (builtin_str : pyobj → string) (offsets_validate : pyobj → res bool) :
  TimingSynchronization_validate offsets_validate sync_ptp_lower_mac = Ok true ∧
  (∃ j, TimingSynchronization_to_json builtin_str sync_ptp_lower_mac = Ok j ∧
        schema_valid TimingSynchronization_make_json_schema j = false) ∧
  TimingSynchronization_validate offsets_validate sync_ptp_dash_mac = Ok true ∧
  (∃ j, TimingSynchronization_to_json builtin_str sync_ptp_dash_mac = Ok j ∧
        schema_valid TimingSynchronization_make_json_schema j = false) ∧
  schema_valid ShutterAngle_make_json_schema (ShutterAngle_to_json (VInt 0)) = false ∧
  schema_valid ShutterAngle_make_json_schema (ShutterAngle_to_json (VInt 360001)) = false.
Proof.
  repeat split; try reflexivity; eexists; split; reflexivity.
Qed.

(** ** [Clip.append] on something that is no [Clip] *)

(** C9.  [append] raises [ValueError] when [clip] is not a [Clip], and
    leaves the whole state, the record's slots included, as it was. *)
Theorem Clip_append_not_a_Clip (self : nat) (v : pyobj) (w : world) :
  Clip_append self (AOther v) w = (w, Raise ValueError).
Proof. reflexivity. Qed.

(** ** Slots *)

Lemma slot_set_slot_eq (w : world) (self : nat) (f : string) (v : pyobj) :
  (self < length (instances w))%nat → slot (set_slot w self f v) self f = Ok v.
Proof.
  intros Hlt. unfold slot, set_slot. simpl. rewrite list_lookup_alter_eq.
  destruct (lookup_lt_is_Some_2 _ _ Hlt) as [values ->]. simpl.
  by rewrite lookup_insert_eq.
Qed.

Lemma slot_set_slot_ne_ref (w : world) (self r : nat) (f g : string) (v : pyobj) :
  r ≠ self → slot (set_slot w self f v) r g = slot w r g.
Proof.
  intros Hne. unfold slot, set_slot. simpl.
  by rewrite list_lookup_alter_ne.
Qed.

Lemma slot_set_slot_ne_field (w : world) (self r : nat) (f g : string) (v : pyobj) :
  g ≠ f → slot (set_slot w self f v) r g = slot w r g.
Proof.
  intros Hne. destruct (decide (r = self)) as [-> | Hr].
  - unfold slot, set_slot. simpl. rewrite list_lookup_alter_eq.
    destruct (instances w !! self) as [values |]; simpl; [| reflexivity].
    by rewrite lookup_insert_ne.
  - by apply slot_set_slot_ne_ref.
Qed.

Lemma instance_set_slot_ne (w : world) (self r : nat) (f : string) (v : pyobj) :
  r ≠ self → instances (set_slot w self f v) !! r = instances w !! r.
Proof. intros Hne. simpl. by rewrite list_lookup_alter_ne. Qed.

Lemma length_set_slot (w : world) (self : nat) (f : string) (v : pyobj) :
  length (instances (set_slot w self f v)) = length (instances w).
Proof. simpl. apply length_alter. Qed.

Lemma tuple_item_raise (l : list pyobj) (i : Z) (e : exn) :
  tuple_item l i = Raise e → e = IndexError.
Proof.
  unfold tuple_item.
  destruct (_ && _); [destruct (l !! _) |]; congruence.
Qed.

(** ** [Clip.append] *)

Lemma append_loop_params (self clip : nat) (items : list (string * descriptor))
    (w : world) :
  Clip_params (append_loop self clip items w).1 = Clip_params w.
Proof.
  revert w. induction items as [| [prop desc] items IH]; intros w; simpl;
    [reflexivity |].
  destruct (slot w clip prop) as [theirs | e]; [| reflexivity].
  destruct (negb (is_None theirs) && bool_decide (sampling desc = REGULAR));
    [| apply IH].
  destruct (slot w self prop) as [ours | e]; [| reflexivity].
  destruct (iadd ours theirs) as [sum | e]; [| reflexivity].
  rewrite IH. reflexivity.
Qed.

Lemma append_loop_other_instances (self clip : nat)
    (items : list (string * descriptor)) (w : world) (r : nat) :
  r ≠ self → instances (append_loop self clip items w).1 !! r = instances w !! r.
Proof.
  intros Hne. revert w.
  induction items as [| [prop desc] items IH]; intros w; simpl; [reflexivity |].
  destruct (slot w clip prop) as [theirs | e]; [| reflexivity].
  destruct (negb (is_None theirs) && bool_decide (sampling desc = REGULAR));
    [| apply IH].
  destruct (slot w self prop) as [ours | e]; [| reflexivity].
  destruct (iadd ours theirs) as [sum | e]; [| reflexivity].
  rewrite IH. by apply instance_set_slot_ne.
Qed.

(** A slot is written only if the descriptor mapping has an entry for it
    whose sampling is REGULAR. *)
Lemma append_loop_frame (self clip : nat) (items : list (string * descriptor))
    (w : world) (r : nat) (f : string) :
  (∀ desc, (f, desc) ∈ items → sampling desc ≠ REGULAR) →
  slot (append_loop self clip items w).1 r f = slot w r f.
Proof.
  revert w. induction items as [| [prop desc] items IH]; intros w Hf; simpl;
    [reflexivity |].
  assert (Hrest : ∀ desc', (f, desc') ∈ items → sampling desc' ≠ REGULAR).
  { intros desc' Hin. apply Hf. by apply list_elem_of_further. }
  destruct (slot w clip prop) as [theirs | e]; [| reflexivity].
  destruct (negb (is_None theirs) && bool_decide (sampling desc = REGULAR)) eqn:Hc;
    [| by apply IH].
  destruct (slot w self prop) as [ours | e]; [| reflexivity].
  destruct (iadd ours theirs) as [sum | e]; [| reflexivity].
  rewrite IH by assumption.
  apply slot_set_slot_ne_field. intros ->.
  apply andb_true_iff in Hc as [_ Hc]. apply bool_decide_eq_true in Hc.
  apply (Hf desc); [apply list_elem_of_here | assumption].
Qed.

(** STATIC fields are untouched by [append], whatever it is given and
    whether or not it raises. *)
Lemma Clip_append_static_untouched (self : nat) (clip : argument) (w : world)
    (r : nat) (f : string) :
  (∀ desc, (f, desc) ∈ Clip_params w → sampling desc = STATIC) →
  slot (Clip_append self clip w).1 r f = slot w r f.
Proof.
  intros Hf. destruct clip as [clip | v]; simpl; [| reflexivity].
  apply append_loop_frame. intros desc Hin. rewrite (Hf desc Hin). discriminate.
Qed.

Lemma Clip_append_params (self : nat) (clip : argument) (w : world) :
  Clip_params (Clip_append self clip w).1 = Clip_params w.
Proof. destruct clip; simpl; [apply append_loop_params | reflexivity]. Qed.

(** C3.  [append] does not create an absent sequence: with record 0 new
    and record 1 holding [t_number = (3,)], appending record 1 to record 0
    raises [TypeError] ([None += (3,)]) and changes nothing.  Where the
    slot of the receiving record holds a sequence, the sequences are
    concatenated: [(1, 2)] and [(3,)] give [(1, 2, 3)], and the STATIC
    field [iso] keeps its value. *)
Theorem Clip_append_absent_slot_raises :
  slot world_append_absent 0 "t_number" = Ok VNone ∧
  slot world_append_absent 1 "t_number" = Ok (VTuple [VInt 3]) ∧
  Clip_append 0 (AClip 1) world_append_absent = (world_append_absent, Raise TypeError) ∧
  Clip_append 0 (AClip 1) world_append_example =
    (setattr world_append_example 0 "timing_sequence_number"
       (VTuple [VInt 1; VInt 2; VInt 3]), Ok ()) ∧
  slot (Clip_append 0 (AClip 1) world_append_example).1 0 "iso" = Ok (VInt 100).
Proof. repeat split; vm_compute; reflexivity. Qed.

(** ** [Clip.make_static_json_schema] *)

Lemma dict_del_fresh {A} (k : string) (d : list (string * A)) :
  k ∉ d.*1 → dict_del k d = d.
Proof.
  induction d as [| [k' x] d IH]; simpl; [reflexivity |].
  rewrite not_elem_of_cons. intros [Hne Hd].
  destruct (String.eqb_spec k k') as [-> | _]; [contradiction |]. simpl.
  by rewrite IH.
Qed.

Lemma set_sampling_fresh (k : string) (d : list (string * descriptor)) :
  k ∉ d.*1 →
  map (λ kd, if String.eqb k kd.1 then (kd.1, set_sampling STATIC kd.2) else kd) d = d.
Proof.
  induction d as [| [k' x] d IH]; simpl; [reflexivity |].
  rewrite not_elem_of_cons. intros [Hne Hd].
  destruct (String.eqb_spec k k') as [-> | _]; [contradiction |].
  by rewrite IH.
Qed.

Lemma static_loop_spec (pre copy : list (string * descriptor)) :
  NoDup ((pre ++ copy)%list).*1 →
  static_loop copy (pre ++ copy)%list = (pre ++ staticised copy)%list.
Proof.
  revert pre. induction copy as [| [prop desc] copy IH]; intros pre Hnd; simpl.
  - unfold staticised. simpl. reflexivity.
  - assert (Hpre : (prop ∉ pre.*1) ∧ (prop ∉ copy.*1)).
    { rewrite fmap_app in Hnd. simpl in Hnd.
      apply NoDup_app in Hnd as (_ & Hdisj & Hcopy).
      apply NoDup_cons in Hcopy as [Hcopy _]. split; [| assumption].
      intros Hin. apply (Hdisj _ Hin). apply list_elem_of_here. }
    destruct Hpre as [Hpre Hcopy].
    assert (Hnd' : NoDup ((pre ++ copy)%list).*1).
    { rewrite fmap_app in Hnd |- *. simpl in Hnd.
      apply NoDup_app in Hnd as (Hp & Hdisj & Hc). apply NoDup_cons in Hc as [_ Hc].
      apply NoDup_app. repeat split; [assumption | | assumption].
      intros x Hx Hx'. apply (Hdisj x Hx). by apply list_elem_of_further. }
    unfold staticised. simpl. destruct (sampling desc) eqn:Hs; simpl.
    + unfold dict_del at 1. rewrite List.filter_app. simpl.
      rewrite String.eqb_refl. simpl.
      fold (dict_del prop pre). fold (dict_del prop copy).
      rewrite !dict_del_fresh by assumption. by apply IH.
    + rewrite map_app. simpl. rewrite String.eqb_refl.
      rewrite !set_sampling_fresh by assumption.
      rewrite (cons_middle _ pre copy), app_assoc.
      rewrite IH.
      * by rewrite <- app_assoc.
      * rewrite <- app_assoc. simpl.
        rewrite fmap_app in Hnd |- *. exact Hnd.
Qed.

Lemma Clip_make_static_json_schema_params
    (make_json_schema : list (string * descriptor) → pyobj) (w : world) :
  NoDup (Clip_params w).*1 →
  Clip_params (Clip_make_static_json_schema make_json_schema w).1 =
  staticised (Clip_params w).
Proof. intros Hnd. simpl. by apply (static_loop_spec []). Qed.

(** ** [Clip.__getitem__] *)

Lemma NoDup_Clip_dir : NoDup Clip_dir.
Proof. by_evaluation. Qed.

Lemma Clip_getitem_unfold (self : nat) (i : Z) (w : world) :
  Clip_getitem self i w =
  let loop := getitem_loop self (length (instances w)) i Clip_dir (Clip_new w).1 in
  (loop.1, _ ← loop.2; Ok (length (instances w))).
Proof.
  unfold Clip_getitem, Clip_new. cbv beta iota zeta.
  destruct (getitem_loop _ _ _ _ _) as [w' r]. reflexivity.
Qed.

(** The slots of a record that [Clip()] has just made. *)
Lemma slot_Clip_new (w : world) (f : string) :
  f ∈ (Clip_params w).*1 → slot (Clip_new w).1 (length (instances w)) f = Ok VNone.
Proof.
  intros Hf. unfold slot. simpl.
  rewrite lookup_app_r, Nat.sub_diag by lia. simpl.
  induction (Clip_params w) as [| [k d] ps IH]; simpl in *.
  - by apply elem_of_nil in Hf.
  - destruct (decide (f = k)) as [-> | Hne].
    + by rewrite lookup_insert_eq.
    + rewrite lookup_insert_ne by done. apply IH.
      apply elem_of_cons in Hf as [? | ?]; [contradiction | assumption].
Qed.

Lemma getitem_loop_frame (self c : nat) (i : Z) (names : list string) (w : world) :
  Clip_params (getitem_loop self c i names w).1 = Clip_params w ∧
  length (instances (getitem_loop self c i names w).1) = length (instances w) ∧
  ∀ k, k ≠ c → instances (getitem_loop self c i names w).1 !! k = instances w !! k.
Proof.
  revert w. induction names as [| f names IH]; intros w; simpl; [done |].
  destruct (getattr w self f) as [v | e]; [| done].
  destruct v; try apply IH.
  destruct (tuple_item l i) as [item | e]; [| done].
  destruct (IH (setattr w c f item)) as (Hp & Hl & Hk).
  rewrite Hp, Hl. repeat split; [apply length_set_slot |].
  intros k Hne. rewrite Hk by done. by apply instance_set_slot_ne.
Qed.

(** A slot of the new record is written only for a field identifier of
    [names] whose slot in the source holds a tuple. *)
Lemma getitem_loop_untouched (self c : nat) (i : Z) (names : list string)
    (w : world) (f : string) :
  self ≠ c →
  f ∉ names ∨ (∀ l, slot w self f ≠ Ok (VTuple l)) →
  slot (getitem_loop self c i names w).1 c f = slot w c f.
Proof.
  intros Hne. revert w.
  induction names as [| f0 names IH]; intros w Hf; simpl; [done |].
  assert (Hrest : ∀ w', (∀ g, slot w' self g = slot w self g) →
                        f ∉ names ∨ (∀ l, slot w' self f ≠ Ok (VTuple l))).
  { intros w' Hw'. destruct Hf as [Hf | Hf].
    - left. by apply not_elem_of_cons in Hf as [_ ?].
    - right. intros l. by rewrite Hw'. }
  unfold getattr. destruct (slot w self f0) as [v | e] eqn:Hv; [| done].
  destruct v; try (apply IH, Hrest; done).
  destruct (tuple_item l i) as [item | e]; [| done].
  rewrite IH.
  - apply slot_set_slot_ne_field. intros ->.
    destruct Hf as [Hf | Hf]; [apply Hf, list_elem_of_here | by apply (Hf l)].
  - apply Hrest. intros g. by apply slot_set_slot_ne_ref.
Qed.

(** When the loop ends without exception, the new record holds the element
    at position [i] of every tuple among the source's slots. *)
Lemma getitem_loop_projected (self c : nat) (i : Z) (names : list string)
    (w : world) :
  NoDup names → self ≠ c → (c < length (instances w))%nat →
  (getitem_loop self c i names w).2 = Ok () →
  ∀ f l, f ∈ names → slot w self f = Ok (VTuple l) →
         slot (getitem_loop self c i names w).1 c f = tuple_item l i.
Proof.
  intros Hnd Hne. revert w.
  induction names as [| f0 names IH]; intros w Hc Hok f l Hf Hl; simpl in *.
  { by apply elem_of_nil in Hf. }
  apply NoDup_cons in Hnd as [Hf0 Hnd]. unfold getattr in *.
  destruct (slot w self f0) as [v | e] eqn:Hv; [| discriminate].
  assert (Hskip : (∀ l0, v ≠ VTuple l0) →
                  (getitem_loop self c i names w).2 = Ok () →
                  slot (getitem_loop self c i names w).1 c f = tuple_item l i).
  { intros Hv' Hok'. apply IH; try done.
    apply elem_of_cons in Hf as [-> | Hf]; [| done].
    rewrite Hl in Hv. injection Hv as <-. by destruct (Hv' l). }
  destruct v; try (apply Hskip; [discriminate | exact Hok]).
  destruct (tuple_item l0 i) as [item | e] eqn:Hitem; [| discriminate].
  apply elem_of_cons in Hf as [-> | Hf].
  - rewrite Hl in Hv. injection Hv as <-.
    rewrite getitem_loop_untouched by (try done; by left).
    rewrite Hitem. by apply slot_set_slot_eq.
  - apply IH; try done.
    + by rewrite length_set_slot.
    + unfold setattr. by rewrite slot_set_slot_ne_ref.
Qed.

(** Whether the loop raises: [IndexError] exactly when some tuple has no
    element at position [i]. *)
Lemma getitem_loop_result (self c : nat) (i : Z) (names : list string)
    (w : world) (values : gmap string pyobj) :
  instances w !! self = Some values → self ≠ c →
  has_slots values names = true →
  (getitem_loop self c i names w).2 =
  if indexable i values names then Ok () else Raise IndexError.
Proof.
  intros Hself Hne. revert w Hself.
  induction names as [| f names IH]; intros w Hself Hslots; simpl in *; [done |].
  apply andb_true_iff in Hslots as [Hf Hslots].
  unfold getattr, slot. rewrite Hself.
  destruct (values !! f) as [v |]; [| discriminate].
  destruct v; simpl; try (by apply IH).
  destruct (tuple_item l i) as [item | e] eqn:Hitem; simpl.
  - apply IH; [| done]. by rewrite instance_set_slot_ne.
  - by rewrite (tuple_item_raise _ _ _ Hitem).
Qed.

Lemma Clip_getitem_params (self : nat) (i : Z) (w : world) :
  Clip_params (Clip_getitem self i w).1 = Clip_params w.
Proof.
  rewrite Clip_getitem_unfold. cbv zeta. cbn [fst].
  by destruct (getitem_loop_frame self (length (instances w)) i Clip_dir
                 (Clip_new w).1) as (-> & _ & _).
Qed.


(** C4, as stated, fails: the record holds [timing_sequence_number =
    (10, 11, 12)], which has the element 11 at position 1, and [t_number =
    (1,)], which has none; [extract(1)] raises [IndexError]. *)
Lemma Clip_getitem_short_sequence_raises :
  slot world_extract_short 0 "timing_sequence_number" =
    Ok (VTuple [VInt 10; VInt 11; VInt 12]) ∧
  tuple_item [VInt 10; VInt 11; VInt 12] 1 = Ok (VInt 11) ∧
  slot world_extract_short 0 "t_number" = Ok (VTuple [VInt 1]) ∧
  (Clip_getitem 0 1 world_extract_short).2 = Raise IndexError.
Proof. repeat split; vm_compute; reflexivity. Qed.

(** C4, amended.  For a record that has a slot for every declared field
    identifier: if every slot that holds a sequence has an element at
    position [i] (counted from the end when [i] is negative), [extract(i)]
    returns a new record in which each such field holds exactly that element
    and in which a field of the descriptor mapping that is absent in the
    source stays absent; if some sequence has no element at position [i],
    [extract(i)] raises [IndexError]. *)
Theorem Clip_getitem_projects (self : nat) (i : Z) (w : world)
    (values : gmap string pyobj) :
  instances w !! self = Some values →
  has_slots values Clip_dir = true →
  if indexable i values Clip_dir
  then (Clip_getitem self i w).2 = Ok (length (instances w)) ∧
       (∀ f l, f ∈ Clip_dir → values !! f = Some (VTuple l) →
               slot (Clip_getitem self i w).1 (length (instances w)) f =
               tuple_item l i) ∧
       (∀ f, f ∈ (Clip_params w).*1 → values !! f = Some VNone →
             slot (Clip_getitem self i w).1 (length (instances w)) f = Ok VNone)
  else (Clip_getitem self i w).2 = Raise IndexError.
Proof.
  intros Hself Hslots.
  assert (Hlt : (self < length (instances w))%nat) by (by eapply lookup_lt_Some).
  assert (Hne : self ≠ length (instances w)) by lia.
  assert (Hself1 : instances (Clip_new w).1 !! self = Some values).
  { cbn [Clip_new fst instances]. by rewrite lookup_app_l. }
  assert (Hc : (length (instances w) < length (instances (Clip_new w).1))%nat).
  { cbn [Clip_new fst instances]. rewrite length_app. simpl. lia. }
  assert (Hsource : ∀ f v, values !! f = Some v → slot (Clip_new w).1 self f = Ok v).
  { intros f v Hf. unfold slot. by rewrite Hself1, Hf. }
  rewrite Clip_getitem_unfold. cbv zeta. cbn [fst snd].
  rewrite (getitem_loop_result _ _ _ _ _ values Hself1 Hne Hslots).
  destruct (indexable i values Clip_dir) eqn:Hidx; [| reflexivity].
  split; [reflexivity |]. split.
  - intros f l Hf Hl.
    apply getitem_loop_projected;
      [apply NoDup_Clip_dir | done | done | | done | by apply Hsource].
    by rewrite (getitem_loop_result _ _ _ _ _ values Hself1 Hne Hslots), Hidx.
  - intros f Hf HNone.
    rewrite getitem_loop_untouched; [by apply slot_Clip_new | done |].
    right. intros l. rewrite (Hsource _ _ HNone). discriminate.
Qed.

Lemma Clip_getitem_projects_witness :
  (Clip_getitem 0 1 world_extract_example).2 = Ok 1%nat ∧
  slot (Clip_getitem 0 1 world_extract_example).1 1 "timing_sequence_number" =
    Ok (VInt 11).
Proof.
  assert (Hvalues : instances world_extract_example !! 0%nat = Some extract_example_values)
    by (vm_compute; reflexivity).
  assert (Hslots : has_slots extract_example_values Clip_dir = true)
    by (vm_compute; reflexivity).
  assert (Hidx : indexable 1 extract_example_values Clip_dir = true)
    by (vm_compute; reflexivity).
  pose proof (Clip_getitem_projects 0 1 world_extract_example extract_example_values
                Hvalues Hslots) as H.
  rewrite Hidx in H. destruct H as (Hok & Hitem & _).
  split; [exact Hok |].
  apply (Hitem "timing_sequence_number" [VInt 10; VInt 11; VInt 12]).
  - by_evaluation.
  - vm_compute. reflexivity.
Defined.




(** ** The descriptor mapping *)

(** C2, as stated, fails: after [Clip.make_static_json_schema] the mapping
    has lost the entry of the STATIC field [duration], and the descriptor of
    the REGULAR field [t_number] has sampling STATIC. *)
Lemma Clip_make_static_json_schema_mutates_params :
  let w' := (Clip_make_static_json_schema (λ _, VNone) world0).1 in
  Clip_params w' ≠ Clip_params world0 ∧
  ("duration" ∈ (Clip_params world0).*1) ∧
  ("duration" ∉ (Clip_params w').*1) ∧
  (("t_number", Descriptor TStop None) ∈ Clip_params world0) ∧
  sampling (Descriptor TStop None) = REGULAR ∧
  (("t_number", Descriptor TStop (Some STATIC)) ∈ Clip_params w') ∧
  sampling (Descriptor TStop (Some STATIC)) = STATIC.
Proof.
  cbv zeta. repeat split; try reflexivity;
    by_evaluation.
Qed.

(** C2, amended.  [Clip.append] and [Clip.__getitem__] leave the descriptor
    mapping [Clip._params] as it is, whatever they are given and whether or
    not they raise.  [Clip.make_static_json_schema] changes it: it removes
    every entry whose sampling is STATIC and sets the sampling of every
    remaining descriptor to STATIC. *)
Theorem Clip_params_changed_only_by_static_schema
    (make_json_schema : list (string * descriptor) → pyobj) (w : world) :
  (∀ self clip, Clip_params (Clip_append self clip w).1 = Clip_params w) ∧
  (∀ self i, Clip_params (Clip_getitem self i w).1 = Clip_params w) ∧
  (NoDup (Clip_params w).*1 →
   Clip_params (Clip_make_static_json_schema make_json_schema w).1 =
   staticised (Clip_params w)).
Proof.
  split; [| split].
  - intros self clip. apply Clip_append_params.
  - intros self i. apply Clip_getitem_params.
  - apply Clip_make_static_json_schema_params.
Qed.

Lemma Clip_params_changed_only_by_static_schema_witness :
  NoDup (Clip_params world0).*1 ∧
  Clip_params (Clip_make_static_json_schema (λ _, VNone) world0).1 =
  staticised (Clip_params world0).
Proof.
  assert (Hnd : NoDup (Clip_params world0).*1).
  { by_evaluation. }
  split; [exact Hnd |].
  apply (Clip_params_changed_only_by_static_schema (λ _, VNone) world0). exact Hnd.
Defined.

(** * Further properties of the descriptors *)

(** ** [ShutterAngle]: codec and schema *)

(** X1.  On the integers the schema fragment of [ShutterAngle] accepts
    exactly what [validate] accepts; [True], which [validate] accepts as the
    integer 1, is written as a JSON boolean and is no integer for the
    schema. *)
Theorem ShutterAngle_schema_iff_validate :
  (∀ z : Z,
      schema_valid ShutterAngle_make_json_schema (ShutterAngle_to_json (VInt z)) = true ↔
      ShutterAngle_validate (VInt z) = true) ∧
  ShutterAngle_validate (VBool true) = true ∧
  schema_valid ShutterAngle_make_json_schema (ShutterAngle_to_json (VBool true)) = false.
Proof.
  split; [| split; reflexivity].
  intros z. unfold ShutterAngle_validate, ShutterAngle_to_json. simpl.
  unfold bounded. simpl.
  rewrite !andb_true_iff, !Z.leb_le, Z.ltb_lt. lia.
Qed.

(** X2.  Round trip of [ShutterAngle]: for every value that [validate]
    accepts, [from_json(to_json(v))] is the integer that [v] stands for, in
    (0, 360000], and it is [v] itself when [v] is an [int]. *)
Theorem ShutterAngle_roundtrip (v : pyobj) :
  ShutterAngle_validate v = true →
  ∃ z, int_of v = Some z ∧ 0 < z ≤ 360000 ∧
       ShutterAngle_from_json (ShutterAngle_to_json v) = Ok (VInt z) ∧
       ShutterAngle_validate (VInt z) = true ∧
       (isinstance_bool v = false → VInt z = v).
Proof.
  unfold ShutterAngle_validate, ShutterAngle_to_json, ShutterAngle_from_json.
  destruct v; simpl; try discriminate.
  - destruct b; simpl; [| discriminate]. intros _. exists 1.
    repeat split; try reflexivity; try lia; discriminate.
  - intros H. exists z. rewrite H.
    apply andb_true_iff in H as [H0 H1]. apply Z.ltb_lt in H0. apply Z.leb_le in H1.
    repeat split; try reflexivity; lia.
Qed.

Lemma ShutterAngle_roundtrip_witness :
  ∃ z, int_of (VInt 180000) = Some z ∧ 0 < z ≤ 360000 ∧
       ShutterAngle_from_json (ShutterAngle_to_json (VInt 180000)) = Ok (VInt z) ∧
       ShutterAngle_validate (VInt z) = true ∧
       (isinstance_bool (VInt 180000) = false → VInt z = VInt 180000).
Proof. apply (ShutterAngle_roundtrip (VInt 180000)). reflexivity. Defined.

(** ** [LensEncoders]: codec and schema *)

Lemma LensEncoders_validate_fields (focus iris zoom : pyobj) :
  LensEncoders_validate (Encoders focus iris zoom) = true →
  is_None focus && is_None iris && is_None zoom = false ∧
  (is_None focus = true ∨ normalised focus = true) ∧
  (is_None iris = true ∨ normalised iris = true) ∧
  (is_None zoom = true ∨ normalised zoom = true).
Proof.
  simpl. destruct (is_None focus && is_None iris && is_None zoom); [discriminate |].
  rewrite !andb_true_iff.
  destruct (is_None focus), (is_None iris), (is_None zoom),
    (normalised focus), (normalised iris), (normalised zoom); simpl; intuition.
Qed.

Lemma LensEncoders_validate_Encoders (v : pyobj) :
  LensEncoders_validate v = true → ∃ focus iris zoom, v = Encoders focus iris zoom.
Proof. destruct v; simpl; try discriminate. eauto. Qed.

Lemma present_encoder (x : pyobj) :
  is_None x = true ∨ normalised x = true →
  x = VNone ∨ ∃ f, x = VFloat f ∧ (0 <=? f)%float = true ∧ (f <=? 1)%float = true.
Proof.
  intros [H | H]; [left; by apply is_None_true | right; by apply normalised_spec].
Qed.

(** X3.  Schema conformance of [LensEncoders]: for every value that
    [validate] accepts, [to_json] succeeds and its result validates against
    the fragment of [make_json_schema]. *)
Theorem LensEncoders_schema_conformance (v : pyobj) :
  LensEncoders_validate v = true →
  ∃ j, LensEncoders_to_json v = Ok j ∧
       schema_valid LensEncoders_make_json_schema j = true.
Proof.
  intros H.
  destruct (LensEncoders_validate_Encoders v H) as (focus & iris & zoom & ->).
  apply LensEncoders_validate_fields in H as (Hsome & Hf & Hi & Hz).
  apply present_encoder in Hf as [-> | (f & -> & Hf0 & Hf1)],
      Hi as [-> | (g & -> & Hi0 & Hi1)], Hz as [-> | (h & -> & Hz0 & Hz1)];
    try discriminate Hsome;
    (eexists; split; [reflexivity |]); simpl; unfold bounded; simpl;
    rewrite ?Hf0, ?Hf1, ?Hi0, ?Hi1, ?Hz0, ?Hz1; reflexivity.
Qed.

Lemma LensEncoders_schema_conformance_witness :
  ∃ j, LensEncoders_to_json (Encoders (VFloat 0.5) VNone (VFloat 1)) = Ok j ∧
       schema_valid LensEncoders_make_json_schema j = true.
Proof.
  apply (LensEncoders_schema_conformance (Encoders (VFloat 0.5) VNone (VFloat 1))).
  reflexivity.
Defined.

(** X4.  Round trip of [LensEncoders]: for every value that [validate]
    accepts, [from_json(to_json(v))] is [v]; the encoders that [to_json]
    leaves out come back as [None]. *)
Theorem LensEncoders_roundtrip (v : pyobj) :
  LensEncoders_validate v = true →
  (LensEncoders_to_json v ≫= LensEncoders_from_json) = Ok v.
Proof.
  intros H.
  destruct (LensEncoders_validate_Encoders v H) as (focus & iris & zoom & ->).
  apply LensEncoders_validate_fields in H as (_ & Hf & Hi & Hz).
  apply present_encoder in Hf as [-> | (f & -> & _)],
      Hi as [-> | (g & -> & _)], Hz as [-> | (h & -> & _)]; reflexivity.
Qed.

Lemma LensEncoders_roundtrip_witness :
  (LensEncoders_to_json (Encoders (VFloat 0.5) VNone (VFloat 1))
     ≫= LensEncoders_from_json) = Ok (Encoders (VFloat 0.5) VNone (VFloat 1)).
Proof.
  apply (LensEncoders_roundtrip (Encoders (VFloat 0.5) VNone (VFloat 1))).
  reflexivity.
Defined.

Lemma unit_number_float (x : pyobj) :
  schema_valid (SNumber (Some 0%float) (Some 1%float)) x = true →
  isinstance_float x = true → normalised x = true.
Proof. destruct x; simpl; try discriminate. unfold bounded. simpl. auto. Qed.

(** X5.  Decoding what the schema accepts: [LensEncoders.from_json] raises
    nothing on a document that validates against the schema fragment, and
    when every number of the document is a float the decoded value is one
    that [validate] accepts.  (An integer 0 or 1 is a number for the schema
    and no float for [validate].) *)
Theorem LensEncoders_decodes_schema_valid (j : pyobj) :
  schema_valid LensEncoders_make_json_schema j = true →
  ∃ d, j = VDict d ∧
       LensEncoders_from_json j =
         Ok (Encoders (keyword "focus" d) (keyword "iris" d) (keyword "zoom" d)) ∧
       ((∀ k x, dict_get k d = Some x → isinstance_float x = true) →
        LensEncoders_validate
          (Encoders (keyword "focus" d) (keyword "iris" d) (keyword "zoom" d)) = true).
Proof.
  destruct j; simpl; try discriminate.
  intros H. apply andb_true_iff in H as [H Hany].
  apply andb_true_iff in H as [Hknown H].
  apply andb_true_iff in H as [Hf H]. apply andb_true_iff in H as [Hi H].
  apply andb_true_iff in H as [Hz _].
  exists d. split; [reflexivity |].
  assert (known_keywords ["focus"; "iris"; "zoom"] d = true) as -> by exact Hknown.
  split; [reflexivity |].
  intros Hfloat. unfold keyword. unfold has_key in Hany.
  assert (Hnum : ∀ k x, dict_get k d = Some x →
                        schema_valid (SNumber (Some 0%float) (Some 1%float)) x = true →
                        ∃ f, x = VFloat f ∧ normalised (VFloat f) = true).
  { intros k x Hk Hx.
    pose proof (unit_number_float x Hx (Hfloat k x Hk)) as Hn.
    destruct (proj1 (normalised_spec x) Hn) as (f & -> & _). eauto. }
  destruct (dict_get "focus" d) as [f |] eqn:Ef.
  1: destruct (Hnum _ _ Ef Hf) as (f' & -> & Hf').
  all: destruct (dict_get "iris" d) as [g |] eqn:Ei.
  1, 3: destruct (Hnum _ _ Ei Hi) as (g' & -> & Hi').
  all: destruct (dict_get "zoom" d) as [h |] eqn:Ez.
  1, 3, 5, 7: destruct (Hnum _ _ Ez Hz) as (h' & -> & Hz').
  all: try discriminate Hany.
  all: cbn [default from_option id LensEncoders_validate is_None andb negb forallb];
    rewrite ?Hf', ?Hi', ?Hz'; reflexivity.
Qed.

Lemma LensEncoders_decodes_schema_valid_witness :
  ∃ d, VDict [("zoom", VFloat 0.25)] = VDict d ∧
       LensEncoders_from_json (VDict [("zoom", VFloat 0.25)]) =
         Ok (Encoders (keyword "focus" d) (keyword "iris" d) (keyword "zoom" d)) ∧
       ((∀ k x, dict_get k d = Some x → isinstance_float x = true) →
        LensEncoders_validate
          (Encoders (keyword "focus" d) (keyword "iris" d) (keyword "zoom" d)) = true).
Proof.
  apply (LensEncoders_decodes_schema_valid (VDict [("zoom", VFloat 0.25)])).
  reflexivity.
Defined.

(** ** [TimingTimecode]: codec and schema *)

(** X6.  Round trip of [TimingTimecode]: for every value that [validate]
    accepts, [from_json(to_json(v))] is [v]; the [format] goes out as its
    string and comes back as the member of the enumeration. *)
Theorem TimingTimecode_roundtrip_holds (builtin_str : pyobj → string) (v : pyobj) :
  TimingTimecode_validate v = true →
  ∃ j, TimingTimecode_to_json builtin_str v = Ok j ∧
       TimingTimecode_from_json j = Ok v ∧
       subscript j "format" ≫= (λ s, Ok (isinstance_str s)) = Ok true.
Proof.
  intros H. apply TimingTimecode_validate_spec in H
    as (hours & minutes & seconds & frames & fmt & h & m & s & f & -> &
        Hh & _ & Hm & _ & Hs & _ & Hf & _).
  unfold TimingTimecode_to_json, asdict. simpl.
  rewrite (int_of_asdict_inner _ _ Hh), (int_of_asdict_inner _ _ Hm),
    (int_of_asdict_inner _ _ Hs), (int_of_asdict_inner _ _ Hf).
  eexists. split; [reflexivity |]. split; [| reflexivity].
  unfold TimingTimecode_from_json. simpl. destruct fmt; reflexivity.
Qed.

Lemma TimingTimecode_roundtrip_holds_witness :
  ∃ j, TimingTimecode_to_json (λ _, "")
         (Timecode (VInt 23) (VInt 59) (VInt 59) (VInt 29) (VTimecodeFormat TC_30D)) = Ok j ∧
       TimingTimecode_from_json j =
         Ok (Timecode (VInt 23) (VInt 59) (VInt 59) (VInt 29) (VTimecodeFormat TC_30D)) ∧
       subscript j "format" ≫= (λ s, Ok (isinstance_str s)) = Ok true.
Proof.
  apply (TimingTimecode_roundtrip_holds (λ _, "")
           (Timecode (VInt 23) (VInt 59) (VInt 59) (VInt 29) (VTimecodeFormat TC_30D))).
  reflexivity.
Defined.

Lemma TimecodeFormat_to_int_le (fmt : TimecodeFormat) : TimecodeFormat_to_int fmt ≤ 30.
Proof. destruct fmt; simpl; lia. Qed.

(** X7.  Schema conformance of [TimingTimecode] on integers: when hours,
    minutes, seconds and frames are [int]s and [validate] accepts the
    timecode, [to_json] of it validates against the schema fragment.  A
    [bool], which [validate] takes for an integer, is written as a JSON
    boolean and fails the fragment. *)
Theorem TimingTimecode_schema_conformance (builtin_str : pyobj → string)
    (h m s f : Z) (fmt : TimecodeFormat) :
  TimingTimecode_validate
    (Timecode (VInt h) (VInt m) (VInt s) (VInt f) (VTimecodeFormat fmt)) = true →
  (∃ j, TimingTimecode_to_json builtin_str
          (Timecode (VInt h) (VInt m) (VInt s) (VInt f) (VTimecodeFormat fmt)) = Ok j ∧
        schema_valid TimingTimecode_make_json_schema j = true) ∧
  TimingTimecode_validate
    (Timecode (VBool true) (VInt m) (VInt s) (VInt f) (VTimecodeFormat fmt)) = true ∧
  (∃ j, TimingTimecode_to_json builtin_str
          (Timecode (VBool true) (VInt m) (VInt s) (VInt f) (VTimecodeFormat fmt)) = Ok j ∧
        schema_valid TimingTimecode_make_json_schema j = false).
Proof.
  intros H. pose proof H as H'. apply TimingTimecode_validate_spec in H
    as (? & ? & ? & ? & ? & h' & m' & s' & f' & [= <- <- <- <- <-] &
        [= <-] & ? & [= <-] & ? & [= <-] & ? & [= <-] & ?).
  pose proof (TimecodeFormat_to_int_le fmt).
  assert (Hm : int_in 0 60 (VInt m) = true) by (apply int_in_spec; eauto).
  assert (Hs : int_in 0 60 (VInt s) = true) by (apply int_in_spec; eauto).
  assert (Hf : int_in 0 (TimecodeFormat_to_int fmt) (VInt f) = true)
    by (apply int_in_spec; eauto).
  assert (Hb : ∀ lo hi x, lo ≤ x ≤ hi →
                 bounded (Some (NInt lo)) (Some (NInt hi)) (NInt x) = true).
  { intros lo hi x Hx. unfold bounded. simpl.
    apply andb_true_iff. rewrite !Z.leb_le. lia. }
  split; [| split].
  - eexists. split; [reflexivity |]. simpl.
    rewrite !Hb by lia. destruct fmt; reflexivity.
  - simpl. simpl in Hm, Hs, Hf. rewrite Hm, Hs, Hf. reflexivity.
  - eexists. split; [reflexivity |]. reflexivity.
Qed.

Lemma TimingTimecode_schema_conformance_witness :
  ∃ j, TimingTimecode_to_json (λ _, "")
         (Timecode (VInt 23) (VInt 59) (VInt 59) (VInt 29) (VTimecodeFormat TC_30D)) = Ok j ∧
       schema_valid TimingTimecode_make_json_schema j = true.
Proof.
  apply (TimingTimecode_schema_conformance (λ _, "") 23 59 59 29 TC_30D).
  reflexivity.
Defined.

(** X8.  Decoding faults of [TimingTimecode.from_json]: a value that is no
    JSON object raises [TypeError]; an object that lacks one of the five
    keys raises [KeyError]; an object that has them, with a [format] string
    of the enumeration, decodes to the timecode of its entries, whatever
    the entries are: no range is checked while decoding. *)
Theorem TimingTimecode_from_json_faults :
  (∀ j, (∀ d, j ≠ VDict d) → TimingTimecode_from_json j = Raise TypeError) ∧
  (∀ d k, k ∈ ["hours"; "minutes"; "seconds"; "frames"; "format"] →
          dict_get k d = None →
          TimingTimecode_from_json (VDict d) = Raise KeyError) ∧
  (∀ d h m s f fmt,
      dict_get "hours" d = Some h → dict_get "minutes" d = Some m →
      dict_get "seconds" d = Some s → dict_get "frames" d = Some f →
      dict_get "format" d = Some (VStr (timecode_format_value fmt)) →
      TimingTimecode_from_json (VDict d) =
        Ok (Timecode h m s f (VTimecodeFormat fmt))).
Proof.
  split; [| split].
  - intros j Hj. destruct j; try reflexivity. by destruct (Hj d).
  - intros d k Hk HNone. unfold TimingTimecode_from_json, subscript. simpl.
    rewrite !elem_of_cons, elem_of_nil in Hk.
    destruct Hk as [-> | [-> | [-> | [-> | [-> | []]]]]];
      rewrite HNone;
      repeat match goal with
             | |- context [dict_get ?k' d] => destruct (dict_get k' d)
             end; reflexivity.
  - intros d h m s f fmt Hh Hm Hs Hf Hfmt.
    unfold TimingTimecode_from_json, subscript. simpl.
    rewrite Hh, Hm, Hs, Hf, Hfmt. simpl. destruct fmt; reflexivity.
Qed.

Lemma TimingTimecode_from_json_faults_witness :
  TimingTimecode_from_json (VList []) = Raise TypeError ∧
  TimingTimecode_from_json (VDict [("hours", VInt 1)]) = Raise KeyError ∧
  TimingTimecode_from_json
    (VDict [("hours", VInt 99); ("minutes", VNone); ("seconds", VInt 0);
            ("frames", VInt 0); ("format", VStr "25")]) =
    Ok (Timecode (VInt 99) VNone (VInt 0) (VInt 0) (VTimecodeFormat TC_25)).
Proof.
  destruct TimingTimecode_from_json_faults as (Htype & Hkey & Hok).
  split; [| split].
  - apply Htype. discriminate.
  - apply (Hkey _ "minutes"); [by_evaluation | reflexivity].
  - by apply (Hok _ _ _ _ _ TC_25).
Defined.

(** * Further properties of [Clip] *)

(** ** [Clip.append] *)

Lemma iadd_None (b : pyobj) : iadd VNone b = Raise TypeError.
Proof. destruct b; reflexivity. Qed.

Lemma append_loop_fresh (self clip : nat) (items : list (string * descriptor))
    (w : world) (ours theirs : gmap string pyobj) :
  instances w !! self = Some ours → instances w !! clip = Some theirs →
  (∀ prop desc, (prop, desc) ∈ items →
                ours !! prop = Some VNone ∧ is_Some (theirs !! prop)) →
  (∃ prop desc v, (prop, desc) ∈ items ∧ sampling desc = REGULAR ∧
                  theirs !! prop = Some v ∧ v ≠ VNone) →
  append_loop self clip items w = (w, Raise TypeError).
Proof.
  intros Hself Hclip. induction items as [| [prop desc] items IH];
    intros Hslots (p & dp & v & Hin & Hreg & Hv & Hpop).
  { by apply elem_of_nil in Hin. }
  simpl. destruct (Hslots prop desc (list_elem_of_here _ _)) as [Hours [tv Htv]].
  unfold slot. rewrite Hclip, Htv, Hself, Hours.
  destruct (negb (is_None tv) && bool_decide (sampling desc = REGULAR)) eqn:Hc.
  - by rewrite iadd_None.
  - apply IH.
    + intros q dq Hq. apply (Hslots q dq). by apply list_elem_of_further.
    + exists p, dp, v. split; [| done].
      apply elem_of_cons in Hin as [[= -> ->] | Hin]; [| done].
      rewrite Hv in Htv. injection Htv as <-.
      apply is_None_false in Hpop. rewrite Hpop, Hreg in Hc.
      by rewrite bool_decide_eq_true_2 in Hc.
Qed.

(** X9.  [append] cannot start a sequence: when no slot of the receiving
    record is populated and the other record has a populated REGULAR field,
    [append] raises [TypeError] and leaves the state as it was. *)
Theorem Clip_append_to_empty_record_raises (self clip : nat) (w : world)
    (ours theirs : gmap string pyobj) :
  instances w !! self = Some ours → instances w !! clip = Some theirs →
  (∀ prop desc, (prop, desc) ∈ Clip_params w →
                ours !! prop = Some VNone ∧ is_Some (theirs !! prop)) →
  (∃ prop desc v, (prop, desc) ∈ Clip_params w ∧ sampling desc = REGULAR ∧
                  theirs !! prop = Some v ∧ v ≠ VNone) →
  Clip_append self (AClip clip) w = (w, Raise TypeError).
Proof. intros. by eapply append_loop_fresh. Qed.

Lemma append_loop_empty (self clip : nat) (items : list (string * descriptor))
    (w : world) (theirs : gmap string pyobj) :
  instances w !! clip = Some theirs →
  (∀ prop desc, (prop, desc) ∈ items → theirs !! prop = Some VNone) →
  append_loop self clip items w = (w, Ok ()).
Proof.
  intros Hclip. induction items as [| [prop desc] items IH]; intros Hslots;
    [reflexivity |].
  simpl. unfold slot at 1. rewrite Hclip, (Hslots prop desc (list_elem_of_here _ _)).
  simpl. apply IH. intros q dq Hq. eapply Hslots. by apply list_elem_of_further.
Qed.

(** X10.  Appending a record without populated slots changes nothing and
    raises nothing, also when the receiving record is empty itself. *)
Theorem Clip_append_empty_record (self clip : nat) (w : world)
    (theirs : gmap string pyobj) :
  instances w !! clip = Some theirs →
  (∀ prop desc, (prop, desc) ∈ Clip_params w → theirs !! prop = Some VNone) →
  Clip_append self (AClip clip) w = (w, Ok ()).
Proof. intros. by eapply append_loop_empty. Qed.

(** X11.  [append] writes to the receiving record only: every other
    record, the appended one included, is as it was, whether or not
    [append] raises, and no record is created. *)
Theorem Clip_append_other_records (self : nat) (clip : argument) (w : world)
    (r : nat) :
  r ≠ self →
  instances (Clip_append self clip w).1 !! r = instances w !! r.
Proof.
  intros Hne. destruct clip as [clip | v]; simpl; [| reflexivity].
  by apply append_loop_other_instances.
Qed.

(** X12.  [append] leaves a field untouched, in every record, when the
    descriptor mapping binds it to STATIC sampling only; it does so
    whatever it is given, whether or not it raises. *)
Theorem Clip_append_static_fields (self : nat) (clip : argument) (w : world)
    (r : nat) (f : string) :
  (∀ desc, (f, desc) ∈ Clip_params w → sampling desc = STATIC) →
  slot (Clip_append self clip w).1 r f = slot w r f.
Proof.
  intros Hf. destruct clip as [clip | v]; simpl; [| reflexivity].
  apply append_loop_frame. intros desc Hin. rewrite (Hf desc Hin). discriminate.
Qed.

Lemma appendable_insert (items : list (string * descriptor)) (prop : string)
    (x : pyobj) (ours theirs : gmap string pyobj) :
  prop ∉ items.*1 →
  appendable items (<[prop := x]> ours) theirs = appendable items ours theirs.
Proof.
  induction items as [| [k d] items IH]; simpl; [reflexivity |].
  rewrite not_elem_of_cons. intros [Hne Hrest].
  rewrite lookup_insert_ne by done. f_equal. exact (IH Hrest).
Qed.

Lemma instance_set_slot_eq (w : world) (self : nat) (f : string) (v : pyobj)
    (values : gmap string pyobj) :
  instances w !! self = Some values →
  instances (set_slot w self f v) !! self = Some (<[f := v]> values).
Proof. intros H. simpl. by rewrite list_lookup_alter_eq, H. Qed.

Lemma append_loop_concat (self clip : nat) (items : list (string * descriptor))
    (w : world) (ours theirs : gmap string pyobj) :
  self ≠ clip →
  instances w !! self = Some ours → instances w !! clip = Some theirs →
  NoDup items.*1 → appendable items ours theirs = true →
  (append_loop self clip items w).2 = Ok () ∧
  ∀ prop desc a b,
    (prop, desc) ∈ items → sampling desc = REGULAR →
    ours !! prop = Some (VTuple a) → theirs !! prop = Some (VTuple b) →
    slot (append_loop self clip items w).1 self prop = Ok (VTuple (a ++ b)).
Proof.
  intros Hne. revert w ours.
  induction items as [| [p0 d0] items IH]; intros w ours Hself Hclip Hnd Happ.
  { split; [reflexivity |]. intros ? ? ? ? Hin. by apply elem_of_nil in Hin. }
  simpl in Hnd. apply NoDup_cons in Hnd as [Hp0 Hnd].
  simpl in Happ. apply andb_true_iff in Happ as [Hhead Happ].
  destruct (theirs !! p0) as [tv |] eqn:Htv; [| discriminate].
  assert (Hsc : slot w clip p0 = Ok tv) by (unfold slot; by rewrite Hclip, Htv).
  simpl. rewrite Hsc.
  destruct (negb (is_None tv) && bool_decide (sampling d0 = REGULAR)) eqn:Hc.
  - destruct (ours !! p0) as [ov |] eqn:Hov; [| discriminate].
    assert (Hss : slot w self p0 = Ok ov) by (unfold slot; by rewrite Hself, Hov).
    rewrite Hss.
    destruct ov; try discriminate. destruct tv; try discriminate. simpl.
    assert (Hself1 := instance_set_slot_eq w self p0 (VTuple (l ++ l0)) ours Hself).
    assert (Hclip1 : instances (set_slot w self p0 (VTuple (l ++ l0))) !! clip
                     = Some theirs).
    { rewrite instance_set_slot_ne by done. exact Hclip. }
    destruct (IH _ _ Hself1 Hclip1 Hnd) as [Hok Hslots].
    { by rewrite appendable_insert. }
    split; [exact Hok |].
    intros prop desc a b Hin Hreg Ha Hb.
    apply elem_of_cons in Hin as [[= -> ->] | Hin].
    + rewrite Hov in Ha. rewrite Htv in Hb. injection Ha as <-. injection Hb as <-.
      rewrite append_loop_frame.
      * apply slot_set_slot_eq. by eapply lookup_lt_Some.
      * intros desc Hin. destruct Hp0. apply list_elem_of_fmap. by exists (p0, desc).
    + apply (Hslots prop desc); try done.
      rewrite lookup_insert_ne; [done |]. intros ->.
      destruct Hp0. apply list_elem_of_fmap. by exists (prop, desc).
  - destruct (IH _ _ Hself Hclip Hnd Happ) as [Hok Hslots].
    split; [exact Hok |].
    intros prop desc a b Hin Hreg Ha Hb.
    apply elem_of_cons in Hin as [[= -> ->] | Hin]; [| by apply (Hslots prop desc)].
    rewrite Htv in Hb. injection Hb as ->.
    simpl in Hc. rewrite Hreg in Hc. by rewrite bool_decide_eq_true_2 in Hc.
Qed.

(** X13.  [append] concatenates: when the two records are distinct, the
    other record has a slot for every field, and for every populated
    REGULAR field of the other record both records hold a tuple, [append]
    raises nothing, and every REGULAR field for which both hold a tuple
    then holds the receiving record's tuple followed by the other's. *)
Theorem Clip_append_concatenates (self clip : nat) (w : world)
    (ours theirs : gmap string pyobj) :
  self ≠ clip →
  instances w !! self = Some ours → instances w !! clip = Some theirs →
  NoDup (Clip_params w).*1 → appendable (Clip_params w) ours theirs = true →
  (Clip_append self (AClip clip) w).2 = Ok () ∧
  ∀ prop desc a b,
    (prop, desc) ∈ Clip_params w → sampling desc = REGULAR →
    ours !! prop = Some (VTuple a) → theirs !! prop = Some (VTuple b) →
    slot (Clip_append self (AClip clip) w).1 self prop = Ok (VTuple (a ++ b)).
Proof. intros. by apply append_loop_concat. Qed.

Lemma Clip_append_concatenates_witness :
  (Clip_append 0 (AClip 1) pair_sequences).2 = Ok () ∧
  slot (Clip_append 0 (AClip 1) pair_sequences).1 0 "timing_sequence_number" =
    Ok (VTuple [VInt 1; VInt 2; VInt 3]).
Proof.
  destruct (Clip_append_concatenates 0 1 pair_sequences
              slots_sequence_12 slots_sequence_3) as [Hok Hslots].
  - discriminate.
  - reflexivity.
  - reflexivity.
  - by_evaluation.
  - vm_compute. exact eq_refl.
  - split; [exact Hok |].
    apply (Hslots "timing_sequence_number" (Descriptor TimingSequenceNumber None)
             [VInt 1; VInt 2] [VInt 3]).
    + by_evaluation.
    + reflexivity.
    + vm_compute. exact eq_refl.
    + vm_compute. exact eq_refl.
Defined.

Lemma forallb_elem_of {A} (f : A → bool) (l : list A) :
  forallb f l = true → ∀ x, x ∈ l → f x = true.
Proof.
  intros H x Hx. apply (proj1 (forallb_forall f l) H). by apply list_elem_of_In.
Qed.

Lemma fresh_slots_spec (params : list (string * descriptor))
    (ours theirs : gmap string pyobj) :
  forallb (λ kd : string * descriptor,
             match ours !! kd.1, theirs !! kd.1 with
             | Some VNone, Some _ => true
             | _, _ => false
             end) params = true →
  ∀ prop desc, (prop, desc) ∈ params →
               ours !! prop = Some VNone ∧ is_Some (theirs !! prop).
Proof.
  intros Hcheck prop desc Hin.
  pose proof (forallb_elem_of _ _ Hcheck (prop, desc) Hin) as H. simpl in H.
  destruct (ours !! prop) as [[] |]; try discriminate H.
  destruct (theirs !! prop); [eauto | discriminate H].
Qed.

Lemma Clip_append_to_empty_record_raises_witness :
  Clip_append 0 (AClip 1) pair_absent = (pair_absent, Raise TypeError).
Proof.
  apply (Clip_append_to_empty_record_raises 0 1 pair_absent slots_empty slots_t_number).
  - reflexivity.
  - reflexivity.
  - apply (fresh_slots_spec (Clip_params pair_absent) slots_empty slots_t_number).
    vm_compute. exact eq_refl.
  - exists "t_number", (Descriptor TStop None), (VTuple [VInt 3]).
    split; [by_evaluation |]. split; [reflexivity |].
    split; [vm_compute; exact eq_refl | discriminate].
Defined.

Lemma unpopulated_spec (params : list (string * descriptor))
    (theirs : gmap string pyobj) :
  forallb (λ kd : string * descriptor,
             match theirs !! kd.1 with
             | Some VNone => true
             | _ => false
             end) params = true →
  ∀ prop desc, (prop, desc) ∈ params → theirs !! prop = Some VNone.
Proof.
  intros Hcheck prop desc Hin.
  pose proof (forallb_elem_of _ _ Hcheck (prop, desc) Hin) as H. simpl in H.
  by destruct (theirs !! prop) as [[] |].
Qed.

Lemma Clip_append_empty_record_witness :
  Clip_append 0 (AClip 1) pair_empty = (pair_empty, Ok ()).
Proof.
  apply (Clip_append_empty_record 0 1 pair_empty slots_empty).
  - reflexivity.
  - apply (unpopulated_spec (Clip_params pair_empty) slots_empty).
    vm_compute. exact eq_refl.
Defined.

Lemma Clip_append_other_records_witness :
  instances (Clip_append 0 (AClip 1) pair_sequences).1 !! 1%nat =
  instances pair_sequences !! 1%nat.
Proof. apply (Clip_append_other_records 0 (AClip 1) pair_sequences 1). discriminate. Defined.

Lemma static_field_spec (params : list (string * descriptor)) (f : string) :
  forallb (λ kd : string * descriptor,
             negb (String.eqb f kd.1) || bool_decide (sampling kd.2 = STATIC)) params
  = true →
  ∀ desc, (f, desc) ∈ params → sampling desc = STATIC.
Proof.
  intros Hcheck desc Hin.
  pose proof (forallb_elem_of _ _ Hcheck (f, desc) Hin) as H. simpl in H.
  rewrite String.eqb_refl in H. simpl in H. by apply bool_decide_eq_true in H.
Qed.

Lemma Clip_append_static_fields_witness :
  slot (Clip_append 0 (AClip 1) pair_sequences).1 0 "iso" =
  slot pair_sequences 0 "iso".
Proof.
  apply (Clip_append_static_fields 0 (AClip 1) pair_sequences 0 "iso").
  apply (static_field_spec (Clip_params pair_sequences) "iso").
  vm_compute. exact eq_refl.
Defined.

(** ** [Clip.make_static_json_schema], called again, and what follows it *)

Lemma staticised_sampling (params : list (string * descriptor)) (kd : string * descriptor) :
  kd ∈ staticised params → sampling kd.2 = STATIC.
Proof.
  unfold staticised. intros Hin. apply list_elem_of_fmap in Hin as (kd' & -> & _).
  reflexivity.
Qed.

Lemma staticised_keys (params : list (string * descriptor)) (k : string) :
  k ∈ (staticised params).*1 → k ∈ params.*1.
Proof.
  unfold staticised. intros Hin.
  apply list_elem_of_fmap in Hin as (kd & -> & Hin).
  apply list_elem_of_fmap in Hin as (kd' & -> & Hin). simpl.
  apply list_elem_of_In, filter_In in Hin as [Hin _].
  apply list_elem_of_fmap. exists kd'. split; [done | by apply list_elem_of_In].
Qed.

Lemma NoDup_staticised (params : list (string * descriptor)) :
  NoDup params.*1 → NoDup (staticised params).*1.
Proof.
  induction params as [| [k d] params IH]; simpl; [by constructor |].
  intros Hnd. apply NoDup_cons in Hnd as [Hk Hnd].
  unfold staticised. simpl. destruct (bool_decide (sampling d = REGULAR)); simpl.
  - apply NoDup_cons. split; [| by apply IH].
    intros Hin. apply Hk. by apply staticised_keys.
  - by apply IH.
Qed.

Lemma staticised_static (params : list (string * descriptor)) :
  (∀ kd, kd ∈ params → sampling kd.2 = STATIC) → staticised params = [].
Proof.
  induction params as [| [k d] params IH]; intros Hall; [reflexivity |].
  unfold staticised. simpl.
  pose proof (Hall (k, d) (list_elem_of_here _ _)) as Hd. simpl in Hd.
  rewrite Hd. simpl.
  apply IH. intros kd Hin. apply Hall. by apply list_elem_of_further.
Qed.

(** X14.  A second call of [Clip.make_static_json_schema] empties the
    descriptor mapping: the first call leaves only descriptors with sampling
    STATIC, and the second deletes every entry with sampling STATIC. *)
Theorem Clip_make_static_json_schema_twice
    (make_json_schema : list (string * descriptor) → pyobj) (w : world) :
  NoDup (Clip_params w).*1 →
  Clip_params
    (Clip_make_static_json_schema make_json_schema
       (Clip_make_static_json_schema make_json_schema w).1).1 = [].
Proof.
  intros Hnd.
  rewrite Clip_make_static_json_schema_params;
    rewrite Clip_make_static_json_schema_params by done.
  - apply staticised_static. intros kd. apply staticised_sampling.
  - by apply NoDup_staticised.
Qed.

Lemma Clip_make_static_json_schema_twice_witness :
  Clip_params
    (Clip_make_static_json_schema (λ _, VNone)
       (Clip_make_static_json_schema (λ _, VNone) world0).1).1 = [].
Proof.
  apply (Clip_make_static_json_schema_twice (λ _, VNone) world0). by_evaluation.
Defined.

(** X15.  After [Clip.make_static_json_schema], [append] accumulates
    nothing any more: no descriptor has sampling REGULAR, and whatever
    [append] is given, every slot of every record stays as it was. *)
Theorem Clip_append_after_static_schema
    (make_json_schema : list (string * descriptor) → pyobj) (w : world)
    (self : nat) (clip : argument) (r : nat) (f : string) :
  NoDup (Clip_params w).*1 →
  slot (Clip_append self clip (Clip_make_static_json_schema make_json_schema w).1).1
    r f = slot w r f.
Proof.
  intros Hnd. rewrite Clip_append_static_untouched; [reflexivity |].
  intros desc Hin. rewrite Clip_make_static_json_schema_params in Hin by done.
  by apply (staticised_sampling (Clip_params w) (f, desc)).
Qed.

Lemma Clip_append_after_static_schema_witness :
  slot (Clip_append 0 (AClip 1)
          (Clip_make_static_json_schema (λ _, VNone) pair_sequences).1).1
    0 "timing_sequence_number" =
  slot pair_sequences 0 "timing_sequence_number".
Proof.
  apply (Clip_append_after_static_schema (λ _, VNone) pair_sequences
           0 (AClip 1) 0 "timing_sequence_number").
  by_evaluation.
Defined.
